(** * Hybrid delivery back end: presence, offline queue and their HTTP handlers

    A shallow embedding of the Express server of the P2P file sharing
    project (the file that declares [app.get("/api/user/status/:peerId")],
    [app.post("/api/share/offline")], [app.get("/api/messages/pending/:peerId")],
    [app.post("/api/messages/delivered/:messageId")],
    [app.post("/api/user/heartbeat")], [app.post("/api/user/mark-offline")]
    and the socket handlers).

    Conventions.
    - A MongoDB collection is the list of its documents, in insertion
      order; [findOne] returns the first document that matches and
      [findOneAndUpdate] rewrites that document in place.
    - A JavaScript [Date] is its millisecond value, an integer; [new Date()]
      and [Date.now()] read the clock value [now] handed to the handler.
    - A request field that may be [undefined] is an [option string]; it is
      truthy when it is a non-empty string.
    - The database calls are total on the in-memory collections: a lost
      connection to MongoDB (every handler answers it with 500) is not
      part of the model; the upload to the pinning service is fallible
      and is modelled as such.
    - Console output is not modelled, except one line of the offline
      share handler that depends on the receiver's presence. *)

From Stdlib Require Import ZArith.
From stdpp Require Import base strings list gmap sorting.

Local Open Scope string_scope.

(** ** JavaScript values used by the handlers *)

(** [!x] for a field that is either [undefined] or a string. *)
Definition truthy (x : option string) : bool :=
  match x with
  | Some s => bool_decide (s ≠ "")
  | None => false
  end.

(** The value a later use of the field reads once [truthy] held. *)
Definition str (x : option string) : string := default "" x.

(** ** The [User] collection (models/Users) *)

Module User.

Record t := mk {
  username : string;
  email : string;
  password : string;
  peerId : string
}.

(** [User.findOne({ peerId })] *)
Definition findOne (peer : string) (c : list t) : option t :=
  snd <$> list_find (λ u, peerId u = peer) c.

End User.

(** ** The [OnlineUsers] collection (models/OnlineUsers) *)

Module OnlineUsers.

Record t := mk {
  peerId : string;
  username : option string;
  email : option string;
  status : string;
  lastSeen : Z
}.

Definition set_status (v : string) (d : t) : t :=
  mk (peerId d) (username d) (email d) v (lastSeen d).

Definition set_lastSeen (v : Z) (d : t) : t :=
  mk (peerId d) (username d) (email d) (status d) v.

(** [OnlineUsers.findOne({ peerId })] *)
Definition findOne (peer : string) (c : list t) : option t :=
  snd <$> list_find (λ d, peerId d = peer) c.

(** [OnlineUsers.findOne({ peerId, status: "online" })] *)
Definition findOne_online (peer : string) (c : list t) : option t :=
  snd <$> list_find (λ d, peerId d = peer ∧ status d = "online") c.

(** [OnlineUsers.findOneAndUpdate({ peerId }, update)] without [upsert]:
    the first matching document is rewritten by [update]; the call
    returns the document ([null] when none matches) and never inserts.
    The returned document is the updated one, as with [{ new: true }]. *)
Definition findOneAndUpdate (peer : string) (update : t → t) (c : list t)
  : option t * list t :=
  match list_find (λ d, peerId d = peer) c with
  | Some (i, d) => (Some (update d), <[i := update d]> c)
  | None => (None, c)
  end.

(** Modelled from the spec: the static [OnlineUsers.markOnline] of
    models/OnlineUsers, which is not among the sources.  The spec has
    [markOnline(peerId, displayName, contact)] as an "idempotent upsert;
    sets status = online, refreshes timestamp."  An existing record keeps
    its other fields; a missing one is created from the arguments. *)
Definition markOnline (peer : string) (name contact : option string)
    (now : Z) (c : list t) : list t :=
  match list_find (λ d, peerId d = peer) c with
  | Some (i, d) => <[i := set_lastSeen now (set_status "online" d)]> c
  | None => (c ++ [mk peer name contact "online" now])%list
  end.

End OnlineUsers.

(** ** The [MessageQueue] collection (models/MessageQueue) *)

Module MessageQueue.

(** Modelled from the spec: the schema of models/MessageQueue, which is
    not among the sources.  The spec's TransferRecord has "sender peer id,
    sender display name, receiver peer id, blob reference, file name, file
    size, status ∈ {ready, delivered}, created-at, ready-at, delivered-at
    (nullable until delivered)"; the field names are those the handlers
    use.  [_id] is the ObjectId, kept as the string of the URL. *)
Record t := mk {
  _id : string;
  senderPeerId : string;
  senderUsername : string;
  receiverPeerId : string;
  ipfsHash : string;
  fileName : string;
  fileSize : Z;
  status : string;
  createdAt : Z;
  readyAt : Z;
  deliveredAt : option Z
}.

(** The update document [{ status: "delivered", deliveredAt: new Date() }]. *)
Definition set_delivered (now : Z) (m : t) : t :=
  mk (_id m) (senderPeerId m) (senderUsername m) (receiverPeerId m)
     (ipfsHash m) (fileName m) (fileSize m) "delivered" (createdAt m)
     (readyAt m) (Some now).

(** Modelled from the spec: the schema defaults that [new MessageQueue]
    fills in.  The spec's enqueue "creates a record in status = ready
    with ready-at = now"; created-at is the same clock reading and
    delivered-at is null until delivery. *)
Definition create (id : string) (now : Z)
    (sender senderName receiver hash name : string) (size : Z) : t :=
  mk id sender senderName receiver hash name size "ready" now now None.

(** [MessageQueue.findById(messageId)].  The id is taken after the
    driver's cast to ObjectId. *)
Definition findById (id : string) (c : list t) : option t :=
  snd <$> list_find (λ m, _id m = id) c.

(** [MessageQueue.findByIdAndUpdate(messageId, update)] *)
Definition findByIdAndUpdate (id : string) (update : t → t) (c : list t)
  : list t :=
  match list_find (λ m, _id m = id) c with
  | Some (i, m) => <[i := update m]> c
  | None => c
  end.

(** [message.save()] of a new document. *)
Definition save (m : t) (c : list t) : list t := (c ++ [m])%list.

(** The order of [.sort({ readyAt: -1 })]: [a] may come before [b]. *)
Definition readyAt_desc (a b : t) : Prop := (readyAt b ≤ readyAt a)%Z.

#[global] Instance readyAt_desc_dec : RelDecision readyAt_desc :=
  λ a b, decide (readyAt b ≤ readyAt a)%Z.

(** [MessageQueue.find({ receiverPeerId, status: "ready" }).sort({ readyAt: -1 })].
    The database leaves the order among equal [readyAt] open; here it is
    the one the merge sort gives. *)
Definition find_ready (peer : string) (c : list t) : list t :=
  merge_sort readyAt_desc
    (filter (λ m, receiverPeerId m = peer ∧ status m = "ready") c).

End MessageQueue.

(** ** Server state and responses *)

Record Server := mkServer {
  users : list User.t;
  onlineUsers : list OnlineUsers.t;
  messageQueue : list MessageQueue.t;
  (** the files present in the [uploads] directory, by path *)
  uploads : gset string
}.

Definition set_onlineUsers (c : list OnlineUsers.t) (s : Server) : Server :=
  mkServer (users s) c (messageQueue s) (uploads s).

Definition set_messageQueue (c : list MessageQueue.t) (s : Server) : Server :=
  mkServer (users s) (onlineUsers s) c (uploads s).

(** [fs.unlink(path)] *)
Definition unlink (path : string) (s : Server) : Server :=
  mkServer (users s) (onlineUsers s) (messageQueue s) (uploads s ∖ {[path]}).

(** The JSON bodies the handlers send. *)
Inductive json :=
| JError (error : string)
| JUserStatus (online : bool) (lastSeen : option Z) (username : string)
| JPending (success : bool) (count : nat) (messages : list MessageQueue.t)
| JSuccess (success : bool) (message : option string)
| JQueued (success : bool) (message ipfsHash ipfsUrl : string).

(** [res.status(code).json(body)]; [res.json] alone answers 200. *)
Record response := mkResponse { code : nat; body : json }.

(** ** [app.get("/api/user/status/:peerId")] *)

Definition get_user_status (peerId : string) (now : Z) (s : Server)
  : response :=
  match User.findOne peerId (users s) with
  | None => mkResponse 404 (JError "User not found")
  | Some user =>
    let onlineUser := OnlineUsers.findOne peerId (onlineUsers s) in
    let timeThreshold := (now - 2 * 60 * 1000)%Z in
    let isOnline :=
      match onlineUser with
      | Some ou =>
        bool_decide (OnlineUsers.status ou = "online")
        && bool_decide (timeThreshold < OnlineUsers.lastSeen ou)%Z
      | None => false
      end in
    mkResponse 200
      (JUserStatus isOnline (OnlineUsers.lastSeen <$> onlineUser)
         (User.username user))
  end.

(** ** [app.get("/api/messages/pending/:peerId")] *)

Definition get_messages_pending (peerId : string) (s : Server) : response :=
  let messages := MessageQueue.find_ready peerId (messageQueue s) in
  mkResponse 200 (JPending true (length messages) messages).

(** ** [app.post("/api/messages/delivered/:messageId")]

    [peerId] is [req.body.peerId]; [!==] against the stored string holds
    for a missing field. *)

Definition post_messages_delivered (messageId : string)
    (peerId : option string) (now : Z) (s : Server) : response * Server :=
  match MessageQueue.findById messageId (messageQueue s) with
  | None => (mkResponse 404 (JError "Message not found"), s)
  | Some message =>
    if decide (Some (MessageQueue.receiverPeerId message) ≠ peerId)
    then (mkResponse 403 (JError "Unauthorized action"), s)
    else
      (mkResponse 200 (JSuccess true (Some "Message marked as delivered")),
       set_messageQueue
         (MessageQueue.findByIdAndUpdate messageId
            (MessageQueue.set_delivered now) (messageQueue s)) s)
  end.

(** ** [app.post("/api/user/heartbeat")]

    The handler hands its three fields to [OnlineUsers.markOnline]; that
    static is taken as the argument [markOnline]. *)

Definition post_user_heartbeat
    (markOnline : string → option string → option string → Z →
                  list OnlineUsers.t → list OnlineUsers.t)
    (peerId username email : option string) (now : Z) (s : Server)
  : response * Server :=
  if negb (truthy peerId)
  then (mkResponse 400 (JError "Peer ID is required"), s)
  else
    (mkResponse 200 (JSuccess true None),
     set_onlineUsers
       (markOnline (str peerId) username email now (onlineUsers s)) s).

(** ** [socket.on("heartbeat")]

    [currentUser] is the variable of the connection's closure, set by
    the [user-online] event; the handler sends nothing back. *)

Record userData := mkUserData {
  ud_peerId : string;
  ud_username : string;
  ud_email : string
}.

Definition socket_heartbeat (currentUser : option userData)
    (peerId : string) (now : Z) (s : Server) : Server :=
  match currentUser with
  | Some cu =>
    if decide (ud_peerId cu = peerId)
    then
      set_onlineUsers
        (snd (OnlineUsers.findOneAndUpdate peerId
                (OnlineUsers.set_lastSeen now) (onlineUsers s))) s
    else s
  | None => s
  end.

(** ** [app.post("/api/user/mark-offline")]

    The three content-type branches all read [req.body.peerId]. *)

Definition post_user_mark_offline (peerId : option string) (now : Z)
    (s : Server) : response * Server :=
  if negb (truthy peerId)
  then (mkResponse 400 (JError "Peer ID is required"), s)
  else
    let '(result, c) :=
      OnlineUsers.findOneAndUpdate (str peerId)
        (λ d, OnlineUsers.set_lastSeen now (OnlineUsers.set_status "offline" d))
        (onlineUsers s) in
    match result with
    | None => (mkResponse 404 (JError "User not found"), set_onlineUsers c s)
    | Some _ =>
      (mkResponse 200 (JSuccess true (Some "User marked as offline")),
       set_onlineUsers c s)
    end.

(** ** [app.post("/api/share/offline")] *)

(** [req.file], as multer leaves it after writing the upload to disk. *)
Record file := mkFile {
  originalname : string;
  mimetype : string;
  size : Z;
  path : string
}.

Record share_request := mkShareRequest {
  req_file : option file;
  body_senderPeerId : option string;
  body_senderUsername : option string;
  body_receiverPeerId : option string
}.

(** [pinataResponse.data] *)
Record pinata_data := mkPinataData { IpfsHash : option string }.

(** What [await axios.post(".../pinning/pinFileToIPFS", ...)] does. *)
Inductive axios_result :=
| AxiosRejects (message : string)
| AxiosResolves (data : option pinata_data).

(** What the handler reads from outside the request and the database. *)
Record environment := mkEnvironment {
  PINATA_API_KEY : option string;
  pinFileToIPFS : axios_result;
  clock : Z;
  (** the ObjectId that [new MessageQueue] generates *)
  objectId : string
}.

Inductive result (A : Type) :=
| Return (a : A)
| Throw (message : string).
Arguments Return {A} a.
Arguments Throw {A} message.

(** The calls that leave the process or write, in program order. *)
Inductive call :=
| PinFileToIPFS (f : file)
| Save (m : MessageQueue.t)
| Unlink (p : string).

(** The one console line that depends on the receiver's presence. *)
Inductive log_line :=
| ReceiverOnlineNote (receiverPeerId : string).

Record outcome := mkOutcome {
  res : response;
  state : Server;
  calls : list call;
  log : list log_line
}.

(** The inner [try] up to [throw new Error("Failed to upload to IPFS")]:
    the hash of the pinned file, or the error thrown; the boolean tells
    whether the request to the pinning service was sent. *)
Definition upload_to_ipfs (env : environment) : result string * bool :=
  if negb (truthy (PINATA_API_KEY env))
  then (Throw "IPFS service configuration error", false)
  else
    match pinFileToIPFS env with
    | AxiosRejects message => (Throw message, true)
    | AxiosResolves None => (Throw "Failed to upload to IPFS", true)
    | AxiosResolves (Some data) =>
      if negb (truthy (IpfsHash data))
      then (Throw "Failed to upload to IPFS", true)
      else (Return (str (IpfsHash data)), true)
    end.

(** [error.message || "Internal server error"] *)
Definition message_or (message fallback : string) : string :=
  if bool_decide (message ≠ "") then message else fallback.

Definition post_share_offline (req : share_request) (env : environment)
    (s : Server) : outcome :=
  match req_file req with
  | None => mkOutcome (mkResponse 400 (JError "No file uploaded")) s [] []
  | Some f =>
    if negb (truthy (body_senderPeerId req))
       || negb (truthy (body_senderUsername req))
       || negb (truthy (body_receiverPeerId req))
    then mkOutcome (mkResponse 400 (JError "Missing required fields")) s [] []
    else
      let senderPeerId := str (body_senderPeerId req) in
      let senderUsername := str (body_senderUsername req) in
      let receiverPeerId := str (body_receiverPeerId req) in
      match User.findOne receiverPeerId (users s) with
      | None => mkOutcome (mkResponse 404 (JError "Receiver not found")) s [] []
      | Some receiver =>
        let isReceiverOnline :=
          OnlineUsers.findOne_online receiverPeerId (onlineUsers s) in
        let noted :=
          match isReceiverOnline with
          | Some _ => [ReceiverOnlineNote receiverPeerId]
          | None => []
          end in
        match upload_to_ipfs env with
        | (Return hash, _) =>
          let message :=
            MessageQueue.create (objectId env) (clock env) senderPeerId
              senderUsername receiverPeerId hash (originalname f) (size f) in
          let s1 :=
            set_messageQueue (MessageQueue.save message (messageQueue s)) s in
          let s2 := unlink (path f) s1 in
          mkOutcome
            (mkResponse 200
               (JQueued true "File queued for delivery" hash
                  ("https://gateway.pinata.cloud/ipfs/" ++ hash)))
            s2 [PinFileToIPFS f; Save message; Unlink (path f)] noted
        | (Throw message, sent) =>
          (* inner catch: clean up the temp file and throw again *)
          let s1 := unlink (path f) s in
          let error := "IPFS upload failed: " ++ message in
          (* outer catch: [if (req.file && req.file.path)] clean up once
             more, then answer 500 *)
          let again := bool_decide (path f ≠ "") in
          let s2 := if again then unlink (path f) s1 else s1 in
          mkOutcome
            (mkResponse 500 (JError (message_or error "Internal server error")))
            s2
            ((if sent then [PinFileToIPFS f] else [])
               ++ Unlink (path f) :: (if again then [Unlink (path f)] else []))%list
            noted
        end
      end
  end.

(** ** Sample data *)

Definition alice : User.t := User.mk "alice" "alice@example.org" "pw1" "p1".
Definition bob : User.t := User.mk "bob" "bob@example.org" "pw2" "p2".
Definition carol : User.t := User.mk "carol" "carol@example.org" "pw3" "p3".

Definition doc_pdf (st : string) (at_ : option Z) : MessageQueue.t :=
  MessageQueue.mk "m1" "p1" "alice" "p2" "QmDoc" "doc.pdf" 1024 st 500 500 at_.

Definition notes_txt : MessageQueue.t :=
  MessageQueue.mk "m2" "p3" "carol" "p2" "QmNotes" "notes.txt" 12 "ready"
    700 700 None.

(** alice is online with a heartbeat at 1000; bob has never been seen;
    one file waits for bob. *)
Definition server0 : Server :=
  mkServer [alice; bob; carol]
    [OnlineUsers.mk "p1" (Some "alice") (Some "alice@example.org") "online" 1000]
    [doc_pdf "ready" None; notes_txt]
    {[ "uploads/file-1.pdf" ]}.

(** The same server after bob acknowledged [m1] at time 100. *)
Definition server_delivered : Server :=
  set_messageQueue [doc_pdf "delivered" (Some 100%Z); notes_txt] server0.

Definition upload1 : file :=
  mkFile "doc.pdf" "application/pdf" 1024 "uploads/file-1.pdf".

Definition share1 (receiver : string) : share_request :=
  mkShareRequest (Some upload1) (Some "p1") (Some "alice") (Some receiver).

Definition env_ok : environment :=
  mkEnvironment (Some "key") (AxiosResolves (Some (mkPinataData (Some "QmNew"))))
    2000 "m3".

Definition env_down : environment :=
  mkEnvironment (Some "key") (AxiosRejects "connect ETIMEDOUT") 2000 "m3".

(** * The rest of the server and the front end *)

(** ** JSON bodies as objects

    The handlers below answer with object literals; a field whose value
    is [undefined] is left out, as [JSON.stringify] does. *)

#[warnings="-register-all"]
Inductive value :=
| VNull
| VBool (b : bool)
| VNum (n : Z)
| VStr (s : string)
| VArr (items : list value)
| VObj (fields : list (string * value)).

Record reply := mkReply { status_code : nat; payload : value }.

(** [{ error: message }] *)
Definition error_body (message : string) : value :=
  VObj [("error", VStr message)].

(** The value of a field of an object; [None] for [undefined]. *)
Definition field (name : string) (v : value) : option value :=
  match v with
  | VObj fields =>
    match list_find (λ kv, fst kv = name) fields with
    | Some (_, (_, x)) => Some x
    | None => None
    end
  | _ => None
  end.

(** ** [isValidEmail]

    The pattern is matched against the UTF-16 code units of the string.
    A [string] stands for the code units below 256 it is made of. *)

Definition code_units (s : string) : list N :=
  Ascii.N_of_ascii <$> String.list_ascii_of_string s.

(** [\s]: the white space and line terminator code units of ECMAScript. *)
Definition is_white_space (u : N) : bool :=
  ((u =? 9) || (u =? 10) || (u =? 11) || (u =? 12) || (u =? 13) || (u =? 32)
   || (u =? 160) || (u =? 5760) || ((8192 <=? u) && (u <=? 8202))
   || (u =? 8232) || (u =? 8233) || (u =? 8239) || (u =? 8287)
   || (u =? 12288) || (u =? 65279))%N.

Inductive regex :=
| Void
| Eps
| Class (p : N → bool)
| Alt (r1 r2 : regex)
| Cat (r1 r2 : regex)
| Star (r : regex).

(** [r+] *)
Definition Plus (r : regex) : regex := Cat r (Star r).

Fixpoint nullable (r : regex) : bool :=
  match r with
  | Void => false
  | Eps => true
  | Class _ => false
  | Alt r1 r2 => nullable r1 || nullable r2
  | Cat r1 r2 => nullable r1 && nullable r2
  | Star _ => true
  end.

(** What is left of [r] to match after the code unit [u]. *)
Fixpoint derive (u : N) (r : regex) : regex :=
  match r with
  | Void => Void
  | Eps => Void
  | Class p => if p u then Eps else Void
  | Alt r1 r2 => Alt (derive u r1) (derive u r2)
  | Cat r1 r2 =>
    if nullable r1
    then Alt (Cat (derive u r1) r2) (derive u r2)
    else Cat (derive u r1) r2
  | Star r1 => Cat (derive u r1) (Star r1)
  end.

(** [/^r$/.test(s)] *)
Fixpoint test (r : regex) (s : list N) : bool :=
  match s with
  | [] => nullable r
  | u :: s => test (derive u r) s
  end.

(** The words of a regular expression. *)
Inductive lang : regex → list N → Prop :=
| lang_Eps : lang Eps []
| lang_Class p u : p u = true → lang (Class p) [u]
| lang_Alt_l r1 r2 s : lang r1 s → lang (Alt r1 r2) s
| lang_Alt_r r1 r2 s : lang r2 s → lang (Alt r1 r2) s
| lang_Cat r1 r2 s1 s2 : lang r1 s1 → lang r2 s2 → lang (Cat r1 r2) (s1 ++ s2)%list
| lang_Star_nil r : lang (Star r) []
| lang_Star_cons r s1 s2 :
    lang r s1 → lang (Star r) s2 → lang (Star r) (s1 ++ s2)%list.

(** [[^\s@]] *)
Definition not_space_or_at (u : N) : bool :=
  negb (is_white_space u) && negb (u =? 64)%N.

(** [/^[^\s@]+@[^\s@]+\.[^\s@]+$/] *)
Definition emailRegex : regex :=
  Cat (Plus (Class not_space_or_at))
    (Cat (Class (N.eqb 64))
       (Cat (Plus (Class not_space_or_at))
          (Cat (Class (N.eqb 46)) (Plus (Class not_space_or_at))))).

Definition isValidEmail (email : string) : bool :=
  test emailRegex (code_units email).

(** ** Redis, as the OTP handlers use it

    A key holds a value and the time at which it expires; [setex] counts
    its seconds from the clock of the call.  Each call may fail, which
    the client reports by throwing. *)

Definition set_users (c : list User.t) (s : Server) : Server :=
  mkServer c (onlineUsers s) (messageQueue s) (uploads s).

Module Redis.

(** [redis.setex(key, seconds, value)] *)
Definition setex (key : string) (seconds : Z) (v : string) (now : Z)
    (db : gmap string (string * Z)) : gmap string (string * Z) :=
  <[key := (v, (now + seconds * 1000)%Z)]> db.

(** [redis.get(key)] *)
Definition get (key : string) (now : Z) (db : gmap string (string * Z))
  : option string :=
  match db !! key with
  | Some (v, expires) => if decide (now < expires)%Z then Some v else None
  | None => None
  end.

(** [redis.del(key)] *)
Definition del (key : string) (db : gmap string (string * Z))
  : gmap string (string * Z) :=
  delete key db.

End Redis.

(** What the OTP handlers read from outside: the code that
    [Math.floor(100000 + Math.random() * 900000).toString()] produced,
    whether each Redis call goes through, and what [transporter.sendMail]
    does (its error message when it rejects). *)
Record otp_environment := mkOtpEnvironment {
  generated_otp : string;
  setex_ok : bool;
  get_ok : bool;
  del_ok : bool;
  sendMail : option string;
  (** [process.env.NODE_ENV === "development"] *)
  development : bool
}.

(** [app.post("/send-otp")] *)
Definition post_send_otp (email : option string) (env : otp_environment)
    (now : Z) (db : gmap string (string * Z))
  : reply * gmap string (string * Z) :=
  if negb (truthy email)
  then (mkReply 400 (error_body "Email is required"), db)
  else if negb (isValidEmail (str email))
  then (mkReply 400 (error_body "Invalid email format"), db)
  else
    let otp := generated_otp env in
    if negb (setex_ok env)
    then (mkReply 500 (error_body "Failed to generate OTP, please try again"), db)
    else
      let db1 := Redis.setex (str email) 300 otp now db in
      match sendMail env with
      | None => (mkReply 200 (VObj [("message", VStr "OTP sent successfully")]), db1)
      | Some emailError =>
        (* Clean up Redis if email fails *)
        if negb (del_ok env)
        then (mkReply 500 (error_body "Internal Server Error"), db1)
        else
          (mkReply 500
             (VObj
                (("error",
                  VStr "Failed to send OTP email. Please check your email address or try again later.")
                 :: (if development env
                     then [("details", VStr emailError)] else []))),
           Redis.del (str email) db1)
      end.

(** [app.post("/verify-otp")] *)
Definition post_verify_otp (email otp : option string) (env : otp_environment)
    (now : Z) (db : gmap string (string * Z))
  : reply * gmap string (string * Z) :=
  if negb (truthy email) || negb (truthy otp)
  then (mkReply 400 (error_body "Email and OTP are required"), db)
  else if negb (isValidEmail (str email))
  then (mkReply 400 (error_body "Invalid email format"), db)
  else if negb (get_ok env)
  then (mkReply 500 (error_body "Failed to verify OTP, please try again"), db)
  else
    let storedOtp := Redis.get (str email) now db in
    if negb (truthy storedOtp)
    then (mkReply 400 (error_body "OTP expired or invalid"), db)
    else if decide (str storedOtp ≠ str otp)
    then (mkReply 400 (error_body "Invalid OTP"), db)
    else
      (* a failure of [del] is logged and the verification goes on *)
      let db1 := if del_ok env then Redis.del (str email) db else db in
      (mkReply 200 (VObj [("message", VStr "OTP verified successfully")]), db1).

(** ** Accounts *)

(** [User.findOne({ email })] *)
Definition User_findOne_email (email : string) (c : list User.t)
  : option User.t :=
  snd <$> list_find (λ u, User.email u = email) c.

(** [User.findOne({ username })] *)
Definition User_findOne_username (username : string) (c : list User.t)
  : option User.t :=
  snd <$> list_find (λ u, User.username u = username) c.

(** [app.post("/register")].  [suffix] is what
    [Math.random().toString(36).substring(2, 15)] produced. *)
Definition post_register (username email password : option string)
    (suffix : string) (s : Server) : reply * Server :=
  if negb (truthy username) || negb (truthy email) || negb (truthy password)
  then
    (mkReply 400
       (VObj [("success", VBool false);
              ("error", VStr "All fields are required")]), s)
  else if negb (isValidEmail (str email))
  then
    (mkReply 400
       (VObj [("success", VBool false);
              ("error", VStr "Invalid email format")]), s)
  else
    let existingEmail := User_findOne_email (str email) (users s) in
    let existingUsername := User_findOne_username (str username) (users s) in
    match existingEmail, existingUsername with
    | Some _, _ =>
      (mkReply 400
         (VObj [("success", VBool false);
                ("error", VStr "Email is already registered. Try Login")]), s)
    | None, Some _ =>
      (mkReply 400
         (VObj [("success", VBool false);
                ("error", VStr "Username is taken. Please use a different one")]),
       s)
    | None, None =>
      let peerId := "peer-" ++ suffix in
      let newUser := User.mk (str username) (str email) (str password) peerId in
      (mkReply 201
         (VObj [("success", VBool true);
                ("message", VStr "User registered successfully");
                ("username", VStr (User.username newUser));
                ("email", VStr (User.email newUser));
                ("peerId", VStr (User.peerId newUser))]),
       set_users (users s ++ [newUser])%list s)
    end.

(** [app.post("/login")], with the static [OnlineUsers.markOnline] as
    an argument. *)
Definition post_login
    (markOnline : string → option string → option string → Z →
                  list OnlineUsers.t → list OnlineUsers.t)
    (email password : option string) (now : Z) (s : Server)
  : reply * Server :=
  if negb (truthy email) || negb (truthy password)
  then (mkReply 400 (error_body "Email and password are required"), s)
  else if negb (isValidEmail (str email))
  then (mkReply 400 (error_body "Invalid email format"), s)
  else
    match User_findOne_email (str email) (users s) with
    | None => (mkReply 400 (error_body "Invalid credentials no user found"), s)
    | Some user =>
      if decide (User.password user ≠ str password)
      then (mkReply 400 (error_body "Invalid credentials no user found"), s)
      else
        (mkReply 200
           (VObj [("success", VBool true);
                  ("message", VStr "Login successful");
                  ("username", VStr (User.username user));
                  ("email", VStr (User.email user));
                  ("peerId", VStr (User.peerId user))]),
         set_onlineUsers
           (markOnline (User.peerId user) (Some (User.username user))
              (Some (User.email user)) now (onlineUsers s)) s)
    end.

(** [app.post("/verify-user")]; [email] is [req.body.email], a string. *)
Definition post_verify_user (email : string) (s : Server) : reply :=
  match User_findOne_email email (users s) with
  | None => mkReply 404 (error_body "User not found")
  | Some user =>
    mkReply 200
      (VObj [("peerId", VStr (User.peerId user));
             ("username", VStr (User.username user))])
  end.

(** [app.post("/check-user-status")]; [peerId] is [req.body.peerId]. *)
Definition post_check_user_status (peerId : string) (s : Server) : reply :=
  match User.findOne peerId (users s) with
  | None => mkReply 404 (error_body "User not found")
  | Some user =>
    mkReply 200
      (VObj [("found", VBool true);
             ("username", VStr (User.username user));
             ("email", VStr (User.email user));
             ("peerId", VStr (User.peerId user))])
  end.

(** [app.post("/verify-peer-id")] *)
Definition post_verify_peer_id (email peerId : string) (s : Server) : reply :=
  match User_findOne_email email (users s) with
  | None => mkReply 404 (error_body "User not found")
  | Some user =>
    let isMatch := bool_decide (User.peerId user = peerId) in
    mkReply 200
      (VObj [("match", VBool isMatch);
             ("storedPeerId", VStr (User.peerId user));
             ("providedPeerId", VStr peerId)])
  end.

(** ** Presence: update-status, the debug listing and the socket session *)

(** A string field of an object literal, left out when [undefined]. *)
Definition opt_field (name : string) (x : option string)
  : list (string * value) :=
  match x with
  | Some v => [(name, VStr v)]
  | None => []
  end.

(** A presence document as JSON (without [_id] and [__v]). *)
Definition presence_value (d : OnlineUsers.t) : value :=
  VObj (("peerId", VStr (OnlineUsers.peerId d))
        :: opt_field "username" (OnlineUsers.username d)
        ++ opt_field "email" (OnlineUsers.email d)
        ++ [("status", VStr (OnlineUsers.status d));
            ("lastSeen", VNum (OnlineUsers.lastSeen d))])%list.

(** [OnlineUsers.findOneAndUpdate({ peerId }, doc, { upsert: true, new: true })]
    where [doc] sets every field: the first document of that peer
    becomes [doc]; without one, [doc] is inserted. *)
Definition OnlineUsers_upsert (doc : OnlineUsers.t) (c : list OnlineUsers.t)
  : OnlineUsers.t * list OnlineUsers.t :=
  match list_find (λ d, OnlineUsers.peerId d = OnlineUsers.peerId doc) c with
  | Some (i, _) => (doc, <[i := doc]> c)
  | None => (doc, (c ++ [doc])%list)
  end.

(** [app.post("/api/user/update-status")] *)
Definition post_user_update_status (peerId username email : option string)
    (now : Z) (s : Server) : reply * Server :=
  if negb (truthy peerId) || negb (truthy username) || negb (truthy email)
  then
    (mkReply 400
       (VObj [("error", VStr "Missing required fields");
              ("received",
               VObj (opt_field "peerId" peerId ++ opt_field "username" username
                     ++ opt_field "email" email)%list)]), s)
  else
    let '(onlineUser, c) :=
      OnlineUsers_upsert
        (OnlineUsers.mk (str peerId) (Some (str username)) (Some (str email))
           "online" now) (onlineUsers s) in
    (mkReply 200
       (VObj [("success", VBool true); ("onlineUser", presence_value onlineUser)]),
     set_onlineUsers c s).

(** One entry of the debug listing: the selected user fields, then
    [status: onlineStatus?.status || "unknown"] and
    [lastSeen: onlineStatus?.lastSeen || null]. *)
Definition debug_entry (onlineUsers : list OnlineUsers.t) (user : User.t)
  : value :=
  let onlineStatus :=
    snd <$> list_find (λ ou, OnlineUsers.peerId ou = User.peerId user)
              onlineUsers in
  VObj [("username", VStr (User.username user));
        ("peerId", VStr (User.peerId user));
        ("email", VStr (User.email user));
        ("status",
         VStr (match onlineStatus with
               | Some ou => message_or (OnlineUsers.status ou) "unknown"
               | None => "unknown"
               end));
        ("lastSeen",
         match onlineStatus with
         | Some ou => VNum (OnlineUsers.lastSeen ou)
         | None => VNull
         end)].

(** [app.get("/api/debug/users")] *)
Definition get_debug_users (s : Server) : reply :=
  let result := debug_entry (onlineUsers s) <$> users s in
  mkReply 200
    (VObj [("totalUsers", VNum (Z.of_nat (length (users s))));
           ("onlineCount",
            VNum (Z.of_nat
                    (length (filter (λ u, OnlineUsers.status u = "online")
                               (onlineUsers s)))));
           ("users", VArr result)]).

(** The events of one socket connection. *)
Inductive socket_event :=
| UserOnline (userData : userData)
| Heartbeat (peerId : string)
| UserOffline (peerId : string)
| Disconnect.

(** One event of [io.on("connection")], at clock value [now]; the pair
    is the closure's [currentUser] and the server.  The statics
    [OnlineUsers.markOnline] and [OnlineUsers.markOffline] are
    arguments. *)
Definition socket_on
    (markOnline : string → option string → option string → Z →
                  list OnlineUsers.t → list OnlineUsers.t)
    (markOffline : string → Z → list OnlineUsers.t → list OnlineUsers.t)
    (event : socket_event) (now : Z)
    (session : option userData * Server) : option userData * Server :=
  let '(currentUser, s) := session in
  match event with
  | UserOnline userData =>
    (Some userData,
     set_onlineUsers
       (markOnline (ud_peerId userData) (Some (ud_username userData))
          (Some (ud_email userData)) now (onlineUsers s)) s)
  | Heartbeat peerId => (currentUser, socket_heartbeat currentUser peerId now s)
  | UserOffline peerId =>
    match currentUser with
    | Some cu =>
      if decide (ud_peerId cu = peerId)
      then (currentUser,
            set_onlineUsers (markOffline peerId now (onlineUsers s)) s)
      else (currentUser, s)
    | None => (currentUser, s)
    end
  | Disconnect =>
    match currentUser with
    | Some cu =>
      (currentUser,
       set_onlineUsers (markOffline (ud_peerId cu) now (onlineUsers s)) s)
    | None => (currentUser, s)
    end
  end.

(** A connection's events in order, each with its clock value. *)
Definition socket_run
    (markOnline : string → option string → option string → Z →
                  list OnlineUsers.t → list OnlineUsers.t)
    (markOffline : string → Z → list OnlineUsers.t → list OnlineUsers.t)
    (events : list (socket_event * Z))
    (session : option userData * Server) : option userData * Server :=
  foldl (λ acc ev, socket_on markOnline markOffline (fst ev) (snd ev) acc)
    session events.

(** ** Upload filters *)

(** The [allowedTypes] of the server's [fileFilter]. *)
Definition allowedTypes : list string :=
  ["application/pdf"; "application/msword";
   "application/vnd.openxmlformats-officedocument.wordprocessingml.document";
   "text/plain"; "image/jpeg"; "image/png"; "image/gif"; "audio/mpeg";
   "audio/wav"; "video/mp4"; "video/x-matroska"; "application/zip";
   "application/x-rar-compressed"; "application/x-7z-compressed"].

(** [fileFilter]: [true] for [cb(null, true)], [false] for
    [cb(new Error("File type not allowed"), false)]. *)
Definition fileFilter (f : file) : bool :=
  bool_decide (mimetype f ∈ allowedTypes).

(** ** The peer reducer of the front end's store *)

Module Peer.

Record state := mk {
  id : option string;
  loading : bool;
  started : bool
}.

Definition initialState : state := mk None false false.

(** The actions, by [action.type]; [OTHER] is any type the reducer does
    not list. *)
Inductive action :=
| PEER_SESSION_START (id : option string)
| PEER_SESSION_STOP
| PEER_LOADING (loading : bool)
| OTHER.

Definition PeerReducer (s : state) (a : action) : state :=
  match a with
  | PEER_SESSION_START id => mk id (loading s) true
  | PEER_SESSION_STOP => initialState
  | PEER_LOADING loading => mk (id s) loading (started s)
  | OTHER => s
  end.

End Peer.

(** ** The data sharing component with file type checks *)

Module DataSharingChecked.

(** A browser [File]: [file.name], [file.type], [file.size]. *)
Record File := mkFile { name : string; type : string; size : Z }.

Definition ALLOWED_FILE_TYPES : list (string * string) :=
  [("pdf", "application/pdf"); ("doc", "application/msword");
   ("docx",
    "application/vnd.openxmlformats-officedocument.wordprocessingml.document");
   ("txt", "text/plain"); ("jpg", "image/jpeg"); ("jpeg", "image/jpeg");
   ("png", "image/png"); ("gif", "image/gif"); ("mp3", "audio/mpeg");
   ("wav", "audio/wav"); ("mp4", "video/mp4"); ("mkv", "video/x-matroska");
   ("zip", "application/zip"); ("rar", "application/x-rar-compressed");
   ("7z", "application/x-7z-compressed")].

(** What reading a property of an object literal gives: its own string,
    a member inherited from [Object.prototype] (truthy, never a string),
    or [undefined]. *)
Inductive property :=
| Own (v : string)
| Inherited
| Undefined.

Definition Object_prototype : list string :=
  ["constructor"; "hasOwnProperty"; "isPrototypeOf"; "propertyIsEnumerable";
   "toLocaleString"; "toString"; "valueOf"; "__proto__"; "__defineGetter__";
   "__defineSetter__"; "__lookupGetter__"; "__lookupSetter__"].

(** [ALLOWED_FILE_TYPES[key]] *)
Definition get (key : string) : property :=
  match list_find (λ kv, fst kv = key) ALLOWED_FILE_TYPES with
  | Some (_, (_, v)) => Own v
  | None => if bool_decide (key ∈ Object_prototype) then Inherited else Undefined
  end.

(** [s.split(sep)] for a one-character separator. *)
Fixpoint split (sep : Ascii.ascii) (s : string) : list string :=
  match s with
  | EmptyString => [EmptyString]
  | String c rest =>
    if decide (c = sep) then EmptyString :: split sep rest
    else
      match split sep rest with
      | first :: others => String c first :: others
      | [] => [String c EmptyString]
      end
  end.

(** [array.pop()] of a non-empty array; [undefined] is not modelled
    since [split] never gives an empty array. *)
Definition pop (parts : list string) : string := List.last parts EmptyString.

(** [toLowerCase] of one code unit below 256: the letters A to Z and
    the capital letters of Latin-1 move by 32. *)
Definition lower (c : Ascii.ascii) : Ascii.ascii :=
  let n := Ascii.N_of_ascii c in
  if ((65 <=? n) && (n <=? 90) || (192 <=? n) && (n <=? 214)
      || (216 <=? n) && (n <=? 222))%N
  then Ascii.ascii_of_N (n + 32) else c.

Fixpoint toLowerCase (s : string) : string :=
  match s with
  | EmptyString => EmptyString
  | String c rest => String (lower c) (toLowerCase rest)
  end.

(** The character ["."], code unit 46. *)
Definition dot : Ascii.ascii := Ascii.ascii_of_N 46.

Definition isFileTypeAllowed (f : File) : bool :=
  let fileType := type f in
  let fileExtension := toLowerCase (pop (split dot (name f))) in
  match get fileExtension with
  | Undefined => false
  | Inherited => false
  | Own expected => bool_decide (expected = fileType)
  end.

(** [beforeUpload] of the [Upload] control: the new [fileList]. *)
Definition beforeUpload (f : File) (fileList : list File) : list File :=
  let maxSize := (100 * 1024 * 1024)%Z in
  if decide (maxSize < size f)%Z then fileList
  else if negb (isFileTypeAllowed f) then fileList
  else [f].

(** What [await axios.get(...)] or [axios.post(...)] does: it resolves
    with [response.data] for a 2xx answer and rejects otherwise, with
    [error.message] and, when the server answered, [error.response.status]. *)
Inductive axios_outcome :=
| Resolves (data : value)
| Rejects (message : string) (status : option nat).

(** The value [checkUserOfflineStatus] returns. *)
Inductive status_result :=
| StatusSuccess (isOnline username lastSeen : option value)
| StatusFailure (error : string) (status : option nat).

(** [checkUserOfflineStatus(peerId)], given what the GET of
    [/api/user/status/:peerId] does. *)
Definition checkUserOfflineStatus (response : axios_outcome) : status_result :=
  match response with
  | Resolves data =>
    StatusSuccess (field "online" data) (field "username" data)
      (field "lastSeen" data)
  | Rejects message status => StatusFailure message status
  end.

(** What the user sees and where the page goes, in order of time. *)
Inductive effect :=
| MessageWarning (content : string)
| MessageSuccess (content : string)
| MessageInfo (content : string)
| MessageError (content : string)
| ConnectPeer (id : string)
| Navigate (to : string) (targetPeerId : string) (targetUsername : option value).

(** [handleConnectOtherPeer].  [connection_id] is [connection.id],
    [isPeerConnected] whether the value of
    [PeerConnection.isPeerConnected(connection.id)] is truthy,
    [connectPeer] the message of the error the dispatched connection
    rejects with ([None] when it resolves), [status] what the status
    request does if it is made.  The two [setTimeout] steps are listed
    in the order in which they run. *)
Definition handleConnectOtherPeer (connection_id : option string)
    (isPeerConnected : bool) (connectPeer : option string)
    (status : axios_outcome) : list effect :=
  if negb (truthy connection_id) then [MessageWarning "Please enter ID"]
  else
    let id := str connection_id in
    if isPeerConnected then [MessageSuccess "Already connected to peer!"]
    else
      match connectPeer with
      | None => [ConnectPeer id; MessageSuccess "Connected to peer successfully!"]
      | Some message =>
        if decide (message = "OFFLINE_PEER")
        then
          let statusResult := checkUserOfflineStatus status in
          let username :=
            match statusResult with
            | StatusSuccess _ username _ => username
            | StatusFailure _ _ => Some (VStr "Unknown User")
            end in
          [ConnectPeer id;
           MessageWarning "Peer is currently offline";
           MessageInfo "Redirecting to offline sharing...";
           Navigate "/offline-sharing" id username]
        else
          [ConnectPeer id;
           MessageError "Failed to establish connection. Please try again."]
      end.

End DataSharingChecked.

(** ** The data sharing component of [components/DataSharing.jsx] *)

Module DataSharing.

(** What the user sees: messages, and the notification whose button
    leads to the offline sharing page with the given state. *)
Inductive effect :=
| MessageWarning (content : string)
| MessageError (content : string)
| ConnectPeer (id : string)
| OfferOfflineSharing (targetPeerId : string) (targetUsername : option value).

(** [response.data.found] as a condition. *)
Definition found (data : value) : bool :=
  match field "found" data with
  | Some (VBool b) => b
  | Some (VStr s) => bool_decide (s ≠ "")
  | Some (VNum n) => bool_decide (n ≠ 0%Z)
  | Some (VArr _) | Some (VObj _) => true
  | Some VNull | None => false
  end.

(** [handleConnectOtherPeer], given what the POST of
    [/check-user-status] does. *)
Definition handleConnectOtherPeer (connection_id : option string)
    (check : DataSharingChecked.axios_outcome) : list effect :=
  if negb (truthy connection_id) then [MessageWarning "Please enter ID"]
  else
    let id := str connection_id in
    ConnectPeer id ::
    match check with
    | DataSharingChecked.Resolves data =>
      if found data
      then [OfferOfflineSharing id (field "username" data)]
      else []
    | DataSharingChecked.Rejects message status =>
      if decide (status = Some 404) then [MessageError "User not found"]
      else [MessageError ("Connection failed: " ++ message)]
    end.

End DataSharing.

(** ** The front end against the server

    What axios makes of a server answer: a status from 200 to 299
    resolves with the body, any other rejects with the status;
    [message] is the text axios gives the error. *)

Definition axios_of (message : string) (r : reply)
  : DataSharingChecked.axios_outcome :=
  if decide (200 ≤ status_code r < 300)
  then DataSharingChecked.Resolves (payload r)
  else DataSharingChecked.Rejects message (Some (status_code r)).

(** The body of the status endpoint as an object. *)
Definition status_reply (r : response) : reply :=
  mkReply (code r)
    match body r with
    | JUserStatus online lastSeen username =>
      VObj [("online", VBool online);
            ("lastSeen", from_option VNum VNull lastSeen);
            ("username", VStr username)]
    | JError error => error_body error
    | _ => VNull
    end.

(** ** Configuration of the server *)

(** [retryStrategy] of the Redis client: the delay, in milliseconds,
    before reconnection attempt number [times]. *)
Definition retryStrategy (times : Z) : Z := Z.min (times * 100) 3000.

(** [limits.fileSize] of the multer upload. *)
Definition limits_fileSize : Z := 100 * 1024 * 1024.

(** * Properties *)

(** ** Looking up and rewriting the first document with a given key *)

Section first_match.
Context {A K : Type} `{EqDecision K} (key : A → K).

Lemma list_find_cons (P : A → Prop) `{∀ x, Decision (P x)} (x : A) (c : list A) :
  list_find P (x :: c)
  = if decide (P x) then Some (0, x) else prod_map S id <$> list_find P c.
Proof. reflexivity. Qed.

Lemma list_find_key_elem (k : K) (c : list A) (i : nat) (d : A) :
  list_find (λ x, key x = k) c = Some (i, d) →
  c !! i = Some d ∧ key d = k ∧ d ∈ c.
Proof.
  intros (Hi & Hk & _)%list_find_Some. split_and!; [done..|].
  by eapply list_elem_of_lookup_2.
Qed.

(** Rewriting the first match by a document with the same key moves no
    document, so every lookup by key finds the same position. *)
Lemma list_find_key_insert (k k' : K) (c : list A) (i : nat) (d d' : A) :
  list_find (λ x, key x = k) c = Some (i, d) →
  key d' = key d →
  list_find (λ x, key x = k') (<[i := d']> c)
  = if decide (k' = k) then Some (i, d')
    else list_find (λ x, key x = k') c.
Proof.
  revert i. induction c as [|x c IH]; intros i Hfind Hkey; [done|].
  rewrite list_find_cons in Hfind.
  destruct (decide (key x = k)) as [Hx|Hx].
  - injection Hfind as <- <-.
    change (<[0 := d']> (x :: c)) with (d' :: c). rewrite !list_find_cons.
    destruct (decide (k' = k)) as [->|Hne].
    + by rewrite decide_True by congruence.
    + by rewrite !decide_False by congruence.
  - destruct (list_find (λ x, key x = k) c) as [[j e]|] eqn:Hc; [|done].
    injection Hfind as <- <-.
    change (<[S j := d']> (x :: c)) with (x :: <[j := d']> c).
    rewrite !list_find_cons, (IH j eq_refl Hkey).
    destruct (decide (key x = k')) as [Hx'|Hx'].
    + by rewrite decide_False by congruence.
    + by destruct (decide (k' = k)).
Qed.

End first_match.

Lemma set_onlineUsers_id (s : Server) : set_onlineUsers (onlineUsers s) s = s.
Proof. by destruct s. Qed.

(** ** The order of the pending list *)

Lemma readyAt_desc_total : Total MessageQueue.readyAt_desc.
Proof. intros a b. unfold MessageQueue.readyAt_desc. lia. Qed.

Lemma readyAt_desc_trans : Transitive MessageQueue.readyAt_desc.
Proof. intros a b c. unfold MessageQueue.readyAt_desc. lia. Qed.

Lemma elem_of_find_ready (peer : string) (c : list MessageQueue.t)
    (m : MessageQueue.t) :
  m ∈ MessageQueue.find_ready peer c
  ↔ m ∈ c ∧ MessageQueue.receiverPeerId m = peer
    ∧ MessageQueue.status m = "ready".
Proof.
  unfold MessageQueue.find_ready.
  rewrite merge_sort_Permutation, list_elem_of_filter. tauto.
Qed.

(** ** Presence query *)

(** C4: for a peer with a presence record the status query answers
    online exactly when the stored status is "online" and the record's
    last heartbeat is less than two minutes (120000 ms) old; a heartbeat
    that is two minutes old or older is answered offline whatever the
    stored status. *)
Theorem status_online_iff_stored_online_and_fresh
    (peerId : string) (now : Z) (s : Server)
    (user : User.t) (ou : OnlineUsers.t) :
  User.findOne peerId (users s) = Some user →
  OnlineUsers.findOne peerId (onlineUsers s) = Some ou →
  ∃ online : bool,
    get_user_status peerId now s
    = mkResponse 200
        (JUserStatus online (Some (OnlineUsers.lastSeen ou))
           (User.username user))
    ∧ (online = true
       ↔ OnlineUsers.status ou = "online"
         ∧ (now - OnlineUsers.lastSeen ou < 2 * 60 * 1000)%Z)
    ∧ ((2 * 60 * 1000 ≤ now - OnlineUsers.lastSeen ou)%Z → online = false).
Proof.
  intros Hu Ho. unfold get_user_status. rewrite Hu, Ho. cbn.
  eexists. split; [reflexivity|]. split.
  - rewrite andb_true_iff, !bool_decide_eq_true. split; intros [? ?]; split; (done || lia).
  - intros Hstale. apply andb_false_iff. right.
    apply bool_decide_eq_false. lia.
Qed.

Lemma status_online_iff_stored_online_and_fresh_witness :
  ∃ online : bool,
    get_user_status "p1" 121000 server0
    = mkResponse 200 (JUserStatus online (Some 1000%Z) "alice")
    ∧ (online = true ↔ "online" = "online" ∧ (121000 - 1000 < 2 * 60 * 1000)%Z)
    ∧ ((2 * 60 * 1000 ≤ 121000 - 1000)%Z → online = false).
Proof.
  apply (status_online_iff_stored_online_and_fresh "p1" 121000 server0 alice
           (OnlineUsers.mk "p1" (Some "alice") (Some "alice@example.org")
              "online" 1000)); reflexivity.
Defined.

(** C10: a peer that is registered but has no presence record is
    answered 200, offline, with a null last-seen time; the query answers
    404 exactly when the peer id is absent from the user collection. *)
Theorem status_without_presence_is_offline_not_404
    (peerId : string) (now : Z) (s : Server) :
  (∀ user,
     User.findOne peerId (users s) = Some user →
     OnlineUsers.findOne peerId (onlineUsers s) = None →
     get_user_status peerId now s
     = mkResponse 200 (JUserStatus false None (User.username user)))
  ∧ (code (get_user_status peerId now s) = 404
     ↔ User.findOne peerId (users s) = None).
Proof.
  unfold get_user_status. split.
  - intros user -> ->. done.
  - destruct (User.findOne peerId (users s)); cbn; split; done.
Qed.

Lemma status_without_presence_is_offline_not_404_witness :
  get_user_status "p2" 121000 server0
  = mkResponse 200 (JUserStatus false None "bob")
  ∧ code (get_user_status "p9" 121000 server0) = 404.
Proof.
  split.
  - apply (proj1 (status_without_presence_is_offline_not_404 "p2" 121000 server0) bob);
      reflexivity.
  - apply (proj2 (status_without_presence_is_offline_not_404 "p9" 121000 server0)).
    reflexivity.
Defined.

(** ** Pending list *)

(** C5: the pending list of a receiver holds exactly the queue records
    addressed to that receiver whose status is "ready" (each as often as
    the queue has it, none that is delivered), newest [readyAt] first,
    and [count] is the number of records returned. *)
Theorem pending_is_ready_records_newest_first (peerId : string) (s : Server) :
  ∃ messages : list MessageQueue.t,
    get_messages_pending peerId s
    = mkResponse 200 (JPending true (length messages) messages)
    ∧ messages
      ≡ₚ filter (λ m, MessageQueue.receiverPeerId m = peerId
                      ∧ MessageQueue.status m = "ready") (messageQueue s)
    ∧ (∀ m, m ∈ messages
            ↔ m ∈ messageQueue s ∧ MessageQueue.receiverPeerId m = peerId
              ∧ MessageQueue.status m = "ready")
    ∧ (∀ m, m ∈ messages → MessageQueue.status m ≠ "delivered")
    ∧ StronglySorted
        (λ a b, (MessageQueue.readyAt b ≤ MessageQueue.readyAt a)%Z) messages.
Proof.
  exists (MessageQueue.find_ready peerId (messageQueue s)).
  split_and!.
  - done.
  - apply merge_sort_Permutation.
  - apply elem_of_find_ready.
  - intros m (_ & _ & Hm)%elem_of_find_ready. by rewrite Hm.
  - apply (@StronglySorted_merge_sort _ MessageQueue.readyAt_desc _
             readyAt_desc_trans readyAt_desc_total).
Qed.

(** ** Acknowledging a delivery *)

Lemma findById_findByIdAndUpdate (id id' : string)
    (update : MessageQueue.t → MessageQueue.t) (c : list MessageQueue.t)
    (m : MessageQueue.t) :
  MessageQueue.findById id c = Some m →
  MessageQueue._id (update m) = MessageQueue._id m →
  MessageQueue.findById id' (MessageQueue.findByIdAndUpdate id update c)
  = if decide (id' = id) then Some (update m) else MessageQueue.findById id' c.
Proof.
  unfold MessageQueue.findById, MessageQueue.findByIdAndUpdate.
  destruct (list_find _ c) as [[i d]|] eqn:Hfind; [|done].
  intros [= ->] Hid.
  rewrite (list_find_key_insert MessageQueue._id id id' c i m) by done.
  by destruct (decide (id' = id)).
Qed.

Lemma findById_elem_of (id : string) (c : list MessageQueue.t)
    (m : MessageQueue.t) :
  MessageQueue.findById id c = Some m → m ∈ c.
Proof.
  unfold MessageQueue.findById.
  destruct (list_find _ c) as [[i d]|] eqn:Hfind; [|done].
  intros [= ->]. by apply (list_find_key_elem MessageQueue._id) in Hfind as (_ & _ & ?).
Qed.

(** C3: when the requesting peer id is not the record's receiver, the
    acknowledgment is refused with 403 and the whole server state,
    the record included, is what it was; a record that was ready is
    still in the pending list of its receiver afterwards. *)
Theorem delivered_by_other_peer_is_refused
    (messageId : string) (peerId : option string) (now : Z) (s : Server)
    (message : MessageQueue.t) :
  MessageQueue.findById messageId (messageQueue s) = Some message →
  peerId ≠ Some (MessageQueue.receiverPeerId message) →
  post_messages_delivered messageId peerId now s
  = (mkResponse 403 (JError "Unauthorized action"), s)
  ∧ MessageQueue.findById messageId
      (messageQueue (snd (post_messages_delivered messageId peerId now s)))
    = Some message
  ∧ (MessageQueue.status message = "ready" →
     ∃ messages,
       get_messages_pending (MessageQueue.receiverPeerId message)
         (snd (post_messages_delivered messageId peerId now s))
       = mkResponse 200 (JPending true (length messages) messages)
       ∧ message ∈ messages).
Proof.
  intros Hfind Hne.
  assert (post_messages_delivered messageId peerId now s
          = (mkResponse 403 (JError "Unauthorized action"), s)) as ->.
  { unfold post_messages_delivered. rewrite Hfind.
    by rewrite decide_True by congruence. }
  split_and!; [done..|]. intros Hready. eexists. split; [reflexivity|].
  apply elem_of_find_ready. eauto using findById_elem_of.
Qed.

Lemma delivered_by_other_peer_is_refused_witness :
  post_messages_delivered "m1" (Some "p3") 200 server0
  = (mkResponse 403 (JError "Unauthorized action"), server0)
  ∧ MessageQueue.findById "m1"
      (messageQueue (snd (post_messages_delivered "m1" (Some "p3") 200 server0)))
    = Some (doc_pdf "ready" None)
  ∧ ("ready" = "ready" →
     ∃ messages,
       get_messages_pending "p2"
         (snd (post_messages_delivered "m1" (Some "p3") 200 server0))
       = mkResponse 200 (JPending true (length messages) messages)
       ∧ doc_pdf "ready" None ∈ messages).
Proof.
  apply (delivered_by_other_peer_is_refused "m1" (Some "p3") 200 server0
           (doc_pdf "ready" None)).
  - reflexivity.
  - discriminate.
Defined.

(** C1, as the code has it: a second acknowledgment by the receiver of a
    record that is already delivered answers 200 and keeps the status
    "delivered", but the update is applied again: [deliveredAt] becomes
    the time of this call, so it keeps its value only when that time is
    the stored one.  No other field, record or collection changes. *)
Theorem delivered_again_overwrites_deliveredAt
    (messageId : string) (now : Z) (s : Server) (message : MessageQueue.t) :
  MessageQueue.findById messageId (messageQueue s) = Some message →
  MessageQueue.status message = "delivered" →
  ∃ s' message',
    post_messages_delivered messageId
      (Some (MessageQueue.receiverPeerId message)) now s
    = (mkResponse 200 (JSuccess true (Some "Message marked as delivered")), s')
    ∧ MessageQueue.findById messageId (messageQueue s') = Some message'
    ∧ message' = MessageQueue.set_delivered now message
    ∧ MessageQueue.status message' = "delivered"
    ∧ MessageQueue.deliveredAt message' = Some now
    ∧ (MessageQueue.deliveredAt message' = MessageQueue.deliveredAt message
       ↔ MessageQueue.deliveredAt message = Some now)
    ∧ (∀ id, id ≠ messageId →
         MessageQueue.findById id (messageQueue s')
         = MessageQueue.findById id (messageQueue s))
    ∧ length (messageQueue s') = length (messageQueue s)
    ∧ users s' = users s ∧ onlineUsers s' = onlineUsers s
    ∧ uploads s' = uploads s.
Proof.
  intros Hfind Hst. unfold post_messages_delivered. rewrite Hfind.
  rewrite decide_False by (intros H; by apply H).
  eexists _, (MessageQueue.set_delivered now message).
  split; [reflexivity|].
  cbn [set_messageQueue messageQueue users onlineUsers uploads].
  assert (∀ id, MessageQueue.findById id
                  (MessageQueue.findByIdAndUpdate messageId
                     (MessageQueue.set_delivered now) (messageQueue s))
                = if decide (id = messageId)
                  then Some (MessageQueue.set_delivered now message)
                  else MessageQueue.findById id (messageQueue s)) as Hafter.
  { intros id. by apply findById_findByIdAndUpdate. }
  split_and!; [| done | done | done | | | | done..].
  - by rewrite Hafter, decide_True.
  - cbn. split; congruence.
  - intros id Hid. by rewrite Hafter, decide_False.
  - unfold MessageQueue.findByIdAndUpdate.
    destruct (list_find _ _) as [[i d]|]; [|done]. by rewrite length_insert.
Qed.

Lemma delivered_again_overwrites_deliveredAt_witness :
  ∃ s' message',
    post_messages_delivered "m1" (Some "p2") 200 server_delivered
    = (mkResponse 200 (JSuccess true (Some "Message marked as delivered")), s')
    ∧ MessageQueue.findById "m1" (messageQueue s') = Some message'
    ∧ message' = doc_pdf "delivered" (Some 200%Z)
    ∧ MessageQueue.status message' = "delivered"
    ∧ MessageQueue.deliveredAt message' = Some 200%Z
    ∧ (MessageQueue.deliveredAt message' = Some 100%Z
       ↔ Some 100%Z = Some 200%Z)
    ∧ (∀ id, id ≠ "m1" →
         MessageQueue.findById id (messageQueue s')
         = MessageQueue.findById id (messageQueue server_delivered))
    ∧ length (messageQueue s') = 2
    ∧ users s' = users server0 ∧ onlineUsers s' = onlineUsers server0
    ∧ uploads s' = uploads server0.
Proof.
  apply (delivered_again_overwrites_deliveredAt "m1" 200 server_delivered
           (doc_pdf "delivered" (Some 100%Z))); reflexivity.
Defined.

(** Counterexample to C1 as the spec states it: the record [m1] was
    delivered at time 100; its receiver acknowledges it again at time
    200, the call answers 200 and the stored delivered-at is now 200. *)
Lemma delivered_again_changes_deliveredAt :
  (MessageQueue.status
     <$> MessageQueue.findById "m1" (messageQueue server_delivered))
  = Some "delivered"
  ∧ (MessageQueue.receiverPeerId
       <$> MessageQueue.findById "m1" (messageQueue server_delivered))
    = Some "p2"
  ∧ (MessageQueue.deliveredAt
       <$> MessageQueue.findById "m1" (messageQueue server_delivered))
    = Some (Some 100%Z)
  ∧ code (fst (post_messages_delivered "m1" (Some "p2") 200 server_delivered))
    = 200
  ∧ (MessageQueue.deliveredAt
       <$> MessageQueue.findById "m1"
             (messageQueue
                (snd (post_messages_delivered "m1" (Some "p2") 200
                        server_delivered))))
    = Some (Some 200%Z)
  ∧ (MessageQueue.deliveredAt
       <$> MessageQueue.findById "m1"
             (messageQueue
                (snd (post_messages_delivered "m1" (Some "p2") 200
                        server_delivered))))
    ≠ (MessageQueue.deliveredAt
         <$> MessageQueue.findById "m1" (messageQueue server_delivered)).
Proof. split_and!; (reflexivity || discriminate). Qed.

(** ** Presence updates *)

Lemma findOne_findOneAndUpdate (p q : string)
    (update : OnlineUsers.t → OnlineUsers.t) (c : list OnlineUsers.t)
    (d : OnlineUsers.t) :
  OnlineUsers.findOne p c = Some d →
  OnlineUsers.peerId (update d) = OnlineUsers.peerId d →
  fst (OnlineUsers.findOneAndUpdate p update c) = Some (update d)
  ∧ OnlineUsers.findOne q (snd (OnlineUsers.findOneAndUpdate p update c))
    = (if decide (q = p) then Some (update d) else OnlineUsers.findOne q c)
  ∧ length (snd (OnlineUsers.findOneAndUpdate p update c)) = length c.
Proof.
  unfold OnlineUsers.findOne, OnlineUsers.findOneAndUpdate.
  destruct (list_find _ c) as [[i e]|] eqn:Hfind; [|done].
  intros [= ->] Hid. cbn [fst snd]. split_and!; [done| |by rewrite length_insert].
  rewrite (list_find_key_insert OnlineUsers.peerId p q c i d) by done.
  by destruct (decide (q = p)).
Qed.

Lemma findOneAndUpdate_absent (p : string)
    (update : OnlineUsers.t → OnlineUsers.t) (c : list OnlineUsers.t) :
  OnlineUsers.findOne p c = None →
  OnlineUsers.findOneAndUpdate p update c = (None, c).
Proof.
  unfold OnlineUsers.findOne, OnlineUsers.findOneAndUpdate.
  by destruct (list_find _ c) as [[i e]|].
Qed.

(** C8: for a (non-empty) peer id with a presence record, mark-offline
    answers 200, the record's status becomes "offline" and its last-seen
    time the current time, its other fields and every other record stay;
    for a peer id without a presence record it answers 404 and the
    server state is unchanged. *)
Theorem mark_offline_updates_record_or_404
    (peerId : string) (now : Z) (s : Server) :
  peerId ≠ "" →
  match OnlineUsers.findOne peerId (onlineUsers s) with
  | Some d =>
    ∃ s',
      post_user_mark_offline (Some peerId) now s
      = (mkResponse 200 (JSuccess true (Some "User marked as offline")), s')
      ∧ OnlineUsers.findOne peerId (onlineUsers s')
        = Some (OnlineUsers.mk (OnlineUsers.peerId d) (OnlineUsers.username d)
                  (OnlineUsers.email d) "offline" now)
      ∧ (∀ q, q ≠ peerId →
           OnlineUsers.findOne q (onlineUsers s')
           = OnlineUsers.findOne q (onlineUsers s))
      ∧ length (onlineUsers s') = length (onlineUsers s)
      ∧ users s' = users s ∧ messageQueue s' = messageQueue s
      ∧ uploads s' = uploads s
  | None =>
    post_user_mark_offline (Some peerId) now s
    = (mkResponse 404 (JError "User not found"), s)
  end.
Proof.
  intros Hp. unfold post_user_mark_offline.
  assert (truthy (Some peerId) = true) as -> by by apply bool_decide_eq_true.
  change (str (Some peerId)) with peerId. cbn [negb].
  destruct (OnlineUsers.findOne peerId (onlineUsers s)) as [d|] eqn:Hfind.
  - set (update := λ d, OnlineUsers.set_lastSeen now
                          (OnlineUsers.set_status "offline" d)).
    assert (∀ q, _) as Hupd
      by (intros q; exact (findOne_findOneAndUpdate peerId q update _ d Hfind eq_refl)).
    destruct (OnlineUsers.findOneAndUpdate peerId update (onlineUsers s))
      as [result c] eqn:Hcall.
    cbn [fst snd] in Hupd.
    destruct (Hupd peerId) as (-> & _ & Hlen).
    cbv beta iota. eexists. split; [reflexivity|].
    cbn [set_onlineUsers onlineUsers users messageQueue uploads].
    split_and!; [| |done..].
    + destruct (Hupd peerId) as (_ & -> & _). by rewrite decide_True.
    + intros q Hq. destruct (Hupd q) as (_ & -> & _). by rewrite decide_False.
  - rewrite findOneAndUpdate_absent by done. by rewrite set_onlineUsers_id.
Qed.

Lemma mark_offline_updates_record_or_404_witness :
  (∃ s',
     post_user_mark_offline (Some "p1") 3000 server0
     = (mkResponse 200 (JSuccess true (Some "User marked as offline")), s')
     ∧ OnlineUsers.findOne "p1" (onlineUsers s')
       = Some (OnlineUsers.mk "p1" (Some "alice") (Some "alice@example.org")
                 "offline" 3000)
     ∧ (∀ q, q ≠ "p1" →
          OnlineUsers.findOne q (onlineUsers s')
          = OnlineUsers.findOne q (onlineUsers server0))
     ∧ length (onlineUsers s') = 1
     ∧ users s' = users server0 ∧ messageQueue s' = messageQueue server0
     ∧ uploads s' = uploads server0)
  ∧ post_user_mark_offline (Some "p2") 3000 server0
    = (mkResponse 404 (JError "User not found"), server0).
Proof.
  split.
  - apply (mark_offline_updates_record_or_404 "p1" 3000 server0). discriminate.
  - apply (mark_offline_updates_record_or_404 "p2" 3000 server0). discriminate.
Defined.

(** ** Heartbeats *)

(** Counterexample to C2 as the spec states it, on the HTTP endpoint:
    bob ("p2") has no presence record; his heartbeat is answered 200, not
    404, and with [markOnline] the upsert the spec describes he now has a
    record, stored as "online".  The socket heartbeat of the same peer
    changes nothing and has no reply in which to refuse. *)
Lemma heartbeat_of_unknown_peer_is_accepted :
  OnlineUsers.findOne "p2" (onlineUsers server0) = None
  ∧ code (fst (post_user_heartbeat OnlineUsers.markOnline (Some "p2")
                 (Some "bob") (Some "bob@example.org") 200 server0)) = 200
  ∧ OnlineUsers.findOne "p2"
      (onlineUsers
         (snd (post_user_heartbeat OnlineUsers.markOnline (Some "p2")
                 (Some "bob") (Some "bob@example.org") 200 server0)))
    = Some (OnlineUsers.mk "p2" (Some "bob") (Some "bob@example.org")
              "online" 200)
  ∧ socket_heartbeat (Some (mkUserData "p2" "bob" "bob@example.org")) "p2"
      200 server0
    = server0.
Proof. split_and!; reflexivity. Qed.

(** C2, as the code has it.  The HTTP heartbeat never answers 404: with
    a peer id it hands the request to [markOnline], whatever that does
    to the presence collection, and answers 200; without one it answers
    400 and changes nothing.  The socket heartbeat creates no record for
    a peer that has none and leaves the server as it is; for a peer with
    a record it rewrites [lastSeen] alone, and only when the connection's
    current user has that peer id; no other field, record or collection
    changes. *)
Theorem heartbeat_http_marks_online_socket_refreshes
    (markOnline : string → option string → option string → Z →
                  list OnlineUsers.t → list OnlineUsers.t)
    (body_peerId username email : option string)
    (currentUser : option userData) (peerId : string) (now : Z) (s : Server) :
  (code (fst (post_user_heartbeat markOnline body_peerId username email now s))
   ≠ 404
   ∧ post_user_heartbeat markOnline body_peerId username email now s
     = if truthy body_peerId
       then (mkResponse 200 (JSuccess true None),
             set_onlineUsers
               (markOnline (str body_peerId) username email now
                  (onlineUsers s)) s)
       else (mkResponse 400 (JError "Peer ID is required"), s))
  ∧ (OnlineUsers.findOne peerId (onlineUsers s) = None →
     socket_heartbeat currentUser peerId now s = s)
  ∧ (∀ d, OnlineUsers.findOne peerId (onlineUsers s) = Some d →
       OnlineUsers.findOne peerId
         (onlineUsers (socket_heartbeat currentUser peerId now s))
       = Some (OnlineUsers.mk (OnlineUsers.peerId d) (OnlineUsers.username d)
                 (OnlineUsers.email d) (OnlineUsers.status d)
                 (if decide (ud_peerId <$> currentUser = Some peerId)
                  then now else OnlineUsers.lastSeen d)))
  ∧ (∀ q, q ≠ peerId →
       OnlineUsers.findOne q
         (onlineUsers (socket_heartbeat currentUser peerId now s))
       = OnlineUsers.findOne q (onlineUsers s))
  ∧ length (onlineUsers (socket_heartbeat currentUser peerId now s))
    = length (onlineUsers s)
  ∧ users (socket_heartbeat currentUser peerId now s) = users s
  ∧ messageQueue (socket_heartbeat currentUser peerId now s) = messageQueue s
  ∧ uploads (socket_heartbeat currentUser peerId now s) = uploads s.
Proof.
  split.
  { unfold post_user_heartbeat. by destruct (truthy body_peerId). }
  assert (socket_heartbeat currentUser peerId now s
          = if decide (ud_peerId <$> currentUser = Some peerId)
            then set_onlineUsers
                   (snd (OnlineUsers.findOneAndUpdate peerId
                           (OnlineUsers.set_lastSeen now) (onlineUsers s))) s
            else s) as ->.
  { unfold socket_heartbeat. destruct currentUser as [cu|]; cbn.
    - destruct (decide (ud_peerId cu = peerId)) as [->|Hne].
      + by rewrite decide_True.
      + rewrite decide_False; [done|]. intros [= H]. done.
    - by rewrite decide_False. }
  destruct (OnlineUsers.findOne peerId (onlineUsers s)) as [d|] eqn:Hfind.
  - assert (∀ q, _) as Hupd
      by (intros q; exact (findOne_findOneAndUpdate peerId q
                             (OnlineUsers.set_lastSeen now) _ d Hfind eq_refl)).
    destruct (decide (ud_peerId <$> currentUser = Some peerId)) as [Hcu|Hcu];
      cbn [set_onlineUsers onlineUsers users messageQueue uploads].
    + split_and!; [done| | |apply (Hupd peerId)|done..].
      * intros ? [= <-]. destruct (Hupd peerId) as (_ & -> & _).
        by rewrite decide_True.
      * intros q Hq. destruct (Hupd q) as (_ & -> & _). by rewrite decide_False.
    + split_and!; [done| |done..]. intros ? [= <-]. rewrite Hfind. by destruct d.
  - rewrite findOneAndUpdate_absent by done. cbn [snd].
    rewrite set_onlineUsers_id. destruct (decide _); by rewrite ?Hfind.
Qed.

Lemma heartbeat_http_marks_online_socket_refreshes_witness :
  code (fst (post_user_heartbeat OnlineUsers.markOnline (Some "p2") None None
               200 server0)) ≠ 404
  ∧ socket_heartbeat (Some (mkUserData "p2" "bob" "bob@example.org")) "p2"
      200 server0 = server0
  ∧ OnlineUsers.findOne "p1"
      (onlineUsers
         (socket_heartbeat (Some (mkUserData "p1" "alice" "alice@example.org"))
            "p1" 5000 server0))
    = Some (OnlineUsers.mk "p1" (Some "alice") (Some "alice@example.org")
              "online" 5000).
Proof.
  destruct (heartbeat_http_marks_online_socket_refreshes OnlineUsers.markOnline
              (Some "p2") None None
              (Some (mkUserData "p2" "bob" "bob@example.org")) "p2" 200 server0)
    as ((Hhttp & _) & Habsent & _).
  destruct (heartbeat_http_marks_online_socket_refreshes OnlineUsers.markOnline
              None None None
              (Some (mkUserData "p1" "alice" "alice@example.org")) "p1" 5000
              server0)
    as (_ & _ & Hpresent & _).
  split_and!.
  - exact Hhttp.
  - apply Habsent. reflexivity.
  - apply (Hpresent
             (OnlineUsers.mk "p1" (Some "alice") (Some "alice@example.org")
                "online" 1000)).
    reflexivity.
Defined.

(** ** Offline share *)

Lemma truthy_Some (x : option string) :
  truthy x = true ↔ ∃ v, x = Some v ∧ v ≠ "".
Proof.
  destruct x as [v|]; cbn.
  - rewrite bool_decide_eq_true. split.
    + intros Hv. by exists v.
    + by intros (? & [= <-] & Hv).
  - split; [done|]. by intros (? & ? & _).
Qed.

(** The upload returns a hash only when the key is configured and the
    pinning service answered with a non-empty [IpfsHash]; the request was
    then sent. *)
Lemma upload_to_ipfs_Return (env : environment) (hash : string) (sent : bool) :
  upload_to_ipfs env = (Return hash, sent) →
  truthy (PINATA_API_KEY env) = true
  ∧ pinFileToIPFS env = AxiosResolves (Some (mkPinataData (Some hash)))
  ∧ hash ≠ "" ∧ sent = true.
Proof.
  unfold upload_to_ipfs.
  destruct (truthy (PINATA_API_KEY env)); [|done]. cbn [negb].
  destruct (pinFileToIPFS env) as [msg|[[h]|]]; [done| |done].
  cbn [IpfsHash]. destruct (truthy h) eqn:Hh; [|done]. cbn [negb].
  apply truthy_Some in Hh as (v & -> & Hv). intros [= <- <-]. done.
Qed.

(** The handler once the request carries a file and the three fields. *)
Lemma share_offline_validated (f : file) (sender senderName receiver : string)
    (env : environment) (s : Server) :
  sender ≠ "" → senderName ≠ "" → receiver ≠ "" →
  post_share_offline
    (mkShareRequest (Some f) (Some sender) (Some senderName) (Some receiver))
    env s
  = match User.findOne receiver (users s) with
    | None => mkOutcome (mkResponse 404 (JError "Receiver not found")) s [] []
    | Some _ =>
      let noted :=
        match OnlineUsers.findOne_online receiver (onlineUsers s) with
        | Some _ => [ReceiverOnlineNote receiver]
        | None => []
        end in
      match upload_to_ipfs env with
      | (Return hash, _) =>
        let message :=
          MessageQueue.create (objectId env) (clock env) sender senderName
            receiver hash (originalname f) (size f) in
        mkOutcome
          (mkResponse 200
             (JQueued true "File queued for delivery" hash
                ("https://gateway.pinata.cloud/ipfs/" ++ hash)))
          (unlink (path f)
             (set_messageQueue (MessageQueue.save message (messageQueue s)) s))
          [PinFileToIPFS f; Save message; Unlink (path f)] noted
      | (Throw message, sent) =>
        mkOutcome
          (mkResponse 500
             (JError (message_or ("IPFS upload failed: " ++ message)
                        "Internal server error")))
          (if bool_decide (path f ≠ "")
           then unlink (path f) (unlink (path f) s)
           else unlink (path f) s)
          ((if sent then [PinFileToIPFS f] else [])
             ++ Unlink (path f)
                :: (if bool_decide (path f ≠ "") then [Unlink (path f)] else []))%list
          noted
      end
    end.
Proof.
  intros H1 H2 H3. unfold post_share_offline.
  cbn [req_file body_senderPeerId body_senderUsername body_receiverPeerId truthy].
  rewrite !bool_decide_eq_true_2 by done. cbn [negb orb].
  change (str (Some sender)) with sender.
  change (str (Some senderName)) with senderName.
  change (str (Some receiver)) with receiver.
  reflexivity.
Qed.

(** Whatever the request, the queue either stays or gains one record
    built from a hash that the upload returned. *)
Lemma share_offline_queue (req : share_request) (env : environment)
    (s : Server) :
  messageQueue (state (post_share_offline req env s)) = messageQueue s
  ∨ ∃ f sender senderName receiver hash,
      req = mkShareRequest (Some f) (Some sender) (Some senderName)
              (Some receiver)
      ∧ sender ≠ "" ∧ senderName ≠ "" ∧ receiver ≠ ""
      ∧ is_Some (User.findOne receiver (users s))
      ∧ upload_to_ipfs env = (Return hash, true).
Proof.
  destruct req as [[f|] sp su rp]; [|by left].
  destruct (truthy sp) eqn:Hsp;
    [|left; unfold post_share_offline; cbn; by rewrite Hsp].
  destruct (truthy su) eqn:Hsu;
    [|left; unfold post_share_offline; cbn; by rewrite Hsp, Hsu].
  destruct (truthy rp) eqn:Hrp;
    [|left; unfold post_share_offline; cbn; by rewrite Hsp, Hsu, Hrp].
  apply truthy_Some in Hsp as (sender & -> & ?).
  apply truthy_Some in Hsu as (senderName & -> & ?).
  apply truthy_Some in Hrp as (receiver & -> & ?).
  rewrite share_offline_validated by done.
  destruct (User.findOne receiver (users s)) as [user|] eqn:Huser; [|by left].
  destruct (upload_to_ipfs env) as [[hash|msg] sent] eqn:Hup.
  - right. apply upload_to_ipfs_Return in Hup as Hsent.
    destruct Hsent as (_ & _ & _ & ->). eexists _, _, _, _, _. eauto 10.
  - left. cbn. by destruct (bool_decide _).
Qed.

(** C6: the queue changes only by one record appended after the pinning
    service has answered with a non-empty hash, which is the record's
    [ipfsHash]; the calls are then the upload, the save and the removal
    of the temp file, in that order.  When the request reaches the upload
    and the upload throws, the answer is 500, the queue is unchanged,
    nothing is saved and the temp file is gone from the upload
    directory. *)
Theorem share_offline_saves_only_after_upload
    (req : share_request) (env : environment) (s : Server) :
  (messageQueue (state (post_share_offline req env s)) = messageQueue s
   ∨ ∃ f hash message,
       req_file req = Some f
       ∧ truthy (PINATA_API_KEY env) = true
       ∧ pinFileToIPFS env = AxiosResolves (Some (mkPinataData (Some hash)))
       ∧ hash ≠ ""
       ∧ MessageQueue.ipfsHash message = hash
       ∧ messageQueue (state (post_share_offline req env s))
         = (messageQueue s ++ [message])%list
       ∧ calls (post_share_offline req env s)
         = [PinFileToIPFS f; Save message; Unlink (path f)]
       ∧ code (res (post_share_offline req env s)) = 200)
  ∧ (∀ f sender senderName receiver message sent,
       req = mkShareRequest (Some f) (Some sender) (Some senderName)
               (Some receiver) →
       sender ≠ "" → senderName ≠ "" → receiver ≠ "" →
       is_Some (User.findOne receiver (users s)) →
       upload_to_ipfs env = (Throw message, sent) →
       res (post_share_offline req env s)
       = mkResponse 500 (JError ("IPFS upload failed: " ++ message))
       ∧ messageQueue (state (post_share_offline req env s)) = messageQueue s
       ∧ (∀ m, Save m ∉ calls (post_share_offline req env s))
       ∧ Unlink (path f) ∈ calls (post_share_offline req env s)
       ∧ path f ∉ uploads (state (post_share_offline req env s))).
Proof.
  split.
  - destruct (share_offline_queue req env s)
      as [Hsame|(f & sender & senderName & receiver & hash & -> & ? & ? & ?
                 & [user Huser] & Hup)]; [by left|].
    right. rewrite share_offline_validated, Huser, Hup by done.
    apply upload_to_ipfs_Return in Hup as (Hkey & Hpin & Hhash & _).
    eexists f, hash, _. split_and!; try done. reflexivity.
  - intros f sender senderName receiver message sent -> Hsender Hname Hreceiver
      [user Huser] Hup.
    rewrite share_offline_validated, Huser, Hup by done.
    clear. cbn [res state calls]. split_and!.
    + done.
    + by destruct (bool_decide _).
    + intros m Hm. destruct sent, (bool_decide (path f ≠ ""));
        repeat (apply elem_of_cons in Hm as [Hm|Hm]; [discriminate|]);
        by apply elem_of_nil in Hm.
    + destruct sent; cbn; rewrite !elem_of_cons; auto.
    + destruct (bool_decide _); cbn [unlink uploads];
        intros [_ Hin]%elem_of_difference; apply Hin; by apply elem_of_singleton.
Qed.

Lemma share_offline_saves_only_after_upload_witness :
  res (post_share_offline (share1 "p2") env_down server0)
  = mkResponse 500 (JError "IPFS upload failed: connect ETIMEDOUT")
  ∧ messageQueue (state (post_share_offline (share1 "p2") env_down server0))
    = messageQueue server0
  ∧ (∀ m, Save m ∉ calls (post_share_offline (share1 "p2") env_down server0))
  ∧ Unlink "uploads/file-1.pdf"
    ∈ calls (post_share_offline (share1 "p2") env_down server0)
  ∧ "uploads/file-1.pdf"
    ∉ uploads (state (post_share_offline (share1 "p2") env_down server0)).
Proof.
  apply (proj2 (share_offline_saves_only_after_upload (share1 "p2") env_down
                  server0)
           upload1 "p1" "alice" "p2" "connect ETIMEDOUT" true);
    try reflexivity; try discriminate.
  exists bob. reflexivity.
Defined.

(** C7: for a request that carries a file and the three fields, a
    receiver peer id that no registered user has is answered 404 with
    the server state unchanged and no call made, neither upload nor
    save; when a user has it and the upload returns a hash, the answer
    is 200 and one record is appended to the queue, in status "ready",
    with [readyAt] the current time, for that receiver. *)
Theorem share_offline_receiver_must_exist
    (f : file) (sender senderName receiver : string)
    (env : environment) (s : Server) :
  sender ≠ "" → senderName ≠ "" → receiver ≠ "" →
  (User.findOne receiver (users s) = None →
   post_share_offline
     (mkShareRequest (Some f) (Some sender) (Some senderName) (Some receiver))
     env s
   = mkOutcome (mkResponse 404 (JError "Receiver not found")) s [] [])
  ∧ (∀ hash,
       is_Some (User.findOne receiver (users s)) →
       fst (upload_to_ipfs env) = Return hash →
       ∃ message,
         code (res (post_share_offline
                      (mkShareRequest (Some f) (Some sender) (Some senderName)
                         (Some receiver)) env s)) = 200
         ∧ messageQueue
             (state (post_share_offline
                       (mkShareRequest (Some f) (Some sender) (Some senderName)
                          (Some receiver)) env s))
           = (messageQueue s ++ [message])%list
         ∧ MessageQueue.status message = "ready"
         ∧ MessageQueue.receiverPeerId message = receiver
         ∧ MessageQueue.senderPeerId message = sender
         ∧ MessageQueue.ipfsHash message = hash
         ∧ MessageQueue.fileName message = originalname f
         ∧ MessageQueue.readyAt message = clock env
         ∧ MessageQueue.deliveredAt message = None).
Proof.
  intros ? ? ?. rewrite share_offline_validated by done. split.
  - by intros ->.
  - intros hash [user ->] Hup.
    destruct (upload_to_ipfs env) as [[h|msg] sent]; cbn in Hup; [|done].
    injection Hup as ->. eexists. split_and!; reflexivity.
Qed.

Lemma share_offline_receiver_must_exist_witness :
  post_share_offline (share1 "p9") env_ok server0
  = mkOutcome (mkResponse 404 (JError "Receiver not found")) server0 [] []
  ∧ ∃ message,
      code (res (post_share_offline (share1 "p2") env_ok server0)) = 200
      ∧ messageQueue (state (post_share_offline (share1 "p2") env_ok server0))
        = (messageQueue server0 ++ [message])%list
      ∧ MessageQueue.status message = "ready"
      ∧ MessageQueue.receiverPeerId message = "p2"
      ∧ MessageQueue.senderPeerId message = "p1"
      ∧ MessageQueue.ipfsHash message = "QmNew"
      ∧ MessageQueue.fileName message = "doc.pdf"
      ∧ MessageQueue.readyAt message = 2000%Z
      ∧ MessageQueue.deliveredAt message = None.
Proof.
  split.
  - apply (share_offline_receiver_must_exist upload1 "p1" "alice" "p9" env_ok
             server0); try discriminate.
    reflexivity.
  - apply (share_offline_receiver_must_exist upload1 "p1" "alice" "p2" env_ok
             server0); try discriminate.
    + exists bob. reflexivity.
    + reflexivity.
Defined.

(** C9: the presence collection has no say in the offline share: with
    any other presence collection the response, the calls, the queue,
    the users and the upload directory come out the same.  So when the
    receiver is registered, is stored as online (the handler notes it)
    and the upload returns a hash, the file is uploaded and a "ready"
    record is appended, as when the receiver is offline. *)
Theorem share_offline_ignores_presence
    (req : share_request) (env : environment) (s : Server)
    (presence : list OnlineUsers.t) :
  (res (post_share_offline req env (set_onlineUsers presence s))
   = res (post_share_offline req env s)
   ∧ calls (post_share_offline req env (set_onlineUsers presence s))
     = calls (post_share_offline req env s)
   ∧ messageQueue (state (post_share_offline req env (set_onlineUsers presence s)))
     = messageQueue (state (post_share_offline req env s))
   ∧ users (state (post_share_offline req env (set_onlineUsers presence s)))
     = users (state (post_share_offline req env s))
   ∧ uploads (state (post_share_offline req env (set_onlineUsers presence s)))
     = uploads (state (post_share_offline req env s))
   ∧ onlineUsers (state (post_share_offline req env (set_onlineUsers presence s)))
     = presence)
  ∧ (∀ f sender senderName receiver hash,
       req = mkShareRequest (Some f) (Some sender) (Some senderName)
               (Some receiver) →
       sender ≠ "" → senderName ≠ "" → receiver ≠ "" →
       is_Some (User.findOne receiver (users s)) →
       is_Some (OnlineUsers.findOne_online receiver (onlineUsers s)) →
       fst (upload_to_ipfs env) = Return hash →
       ∃ message,
         code (res (post_share_offline req env s)) = 200
         ∧ log (post_share_offline req env s) = [ReceiverOnlineNote receiver]
         ∧ calls (post_share_offline req env s)
           = [PinFileToIPFS f; Save message; Unlink (path f)]
         ∧ messageQueue (state (post_share_offline req env s))
           = (messageQueue s ++ [message])%list
         ∧ MessageQueue.status message = "ready"
         ∧ MessageQueue.receiverPeerId message = receiver
         ∧ MessageQueue.ipfsHash message = hash).
Proof.
  split.
  - unfold post_share_offline.
    destruct (req_file req) as [f|]; [|done].
    destruct (_ || _); [done|].
    cbn [set_onlineUsers users onlineUsers messageQueue uploads].
    destruct (User.findOne _ (users s)); [|done].
    destruct (upload_to_ipfs env) as [[hash|msg] sent];
      [done|by destruct (bool_decide _)].
  - intros f sender senderName receiver hash -> ? ? ? [user Huser] [ou Hou] Hup.
    rewrite share_offline_validated, Huser, Hou by done.
    destruct (upload_to_ipfs env) as [[h|msg] sent]; cbn in Hup; [|done].
    injection Hup as ->. eexists. split_and!; reflexivity.
Qed.

Lemma share_offline_ignores_presence_witness :
  ∃ message,
    code (res (post_share_offline (share1 "p1") env_ok server0)) = 200
    ∧ log (post_share_offline (share1 "p1") env_ok server0)
      = [ReceiverOnlineNote "p1"]
    ∧ calls (post_share_offline (share1 "p1") env_ok server0)
      = [PinFileToIPFS upload1; Save message; Unlink "uploads/file-1.pdf"]
    ∧ messageQueue (state (post_share_offline (share1 "p1") env_ok server0))
      = (messageQueue server0 ++ [message])%list
    ∧ MessageQueue.status message = "ready"
    ∧ MessageQueue.receiverPeerId message = "p1"
    ∧ MessageQueue.ipfsHash message = "QmNew".
Proof.
  apply (proj2 (share_offline_ignores_presence (share1 "p1") env_ok server0 [])
           upload1 "p1" "alice" "p1" "QmNew");
    try reflexivity; try discriminate.
  - exists alice. reflexivity.
  - eexists. reflexivity.
Defined.

(** * Further properties of the queue *)

Lemma find_ready_save (peer : string) (m : MessageQueue.t)
    (c : list MessageQueue.t) :
  MessageQueue.receiverPeerId m = peer →
  MessageQueue.status m = "ready" →
  MessageQueue.find_ready peer (MessageQueue.save m c)
  ≡ₚ m :: MessageQueue.find_ready peer c.
Proof.
  intros Hpeer Hready. unfold MessageQueue.find_ready, MessageQueue.save.
  rewrite !merge_sort_Permutation, filter_app, filter_cons_True by done.
  rewrite filter_nil. by rewrite <- Permutation_cons_append.
Qed.

(** Rewriting one position of a collection, seen through a filter that
    the old document passes and the new one does not. *)
Lemma filter_insert_out {A} (P : A → Prop) `{∀ x, Decision (P x)}
    (c : list A) (i : nat) (x y : A) :
  c !! i = Some x → P x → ¬ P y →
  filter P c ≡ₚ x :: filter P (<[i := y]> c).
Proof.
  intros Hi Hx Hy.
  rewrite insert_take_drop by (by eapply lookup_lt_Some).
  rewrite <- (take_drop_middle c i x) at 1 by done.
  rewrite !filter_app, filter_cons_True, filter_cons_False by done.
  by rewrite <- Permutation_middle.
Qed.

(** The same when neither document passes the filter. *)
Lemma filter_insert_neither {A} (P : A → Prop) `{∀ x, Decision (P x)}
    (c : list A) (i : nat) (x y : A) :
  c !! i = Some x → ¬ P x → ¬ P y →
  filter P (<[i := y]> c) = filter P c.
Proof.
  intros Hi Hx Hy. symmetry.
  rewrite insert_take_drop by (by eapply lookup_lt_Some).
  rewrite <- (take_drop_middle c i x) at 1 by done.
  by rewrite !filter_app, !filter_cons_False by done.
Qed.

(** X1: a share that reaches the queue shows in the receiver's pending
    list: the list after the share is the list before plus the new
    record, and its count is one more. *)
Theorem share_offline_then_pending
    (f : file) (sender senderName receiver hash : string)
    (env : environment) (s : Server) :
  sender ≠ "" → senderName ≠ "" → receiver ≠ "" →
  is_Some (User.findOne receiver (users s)) →
  fst (upload_to_ipfs env) = Return hash →
  ∃ before after,
    get_messages_pending receiver s
    = mkResponse 200 (JPending true (length before) before)
    ∧ get_messages_pending receiver
        (state (post_share_offline
                  (mkShareRequest (Some f) (Some sender) (Some senderName)
                     (Some receiver)) env s))
      = mkResponse 200 (JPending true (S (length before)) after)
    ∧ after
      ≡ₚ MessageQueue.create (objectId env) (clock env) sender senderName
           receiver hash (originalname f) (size f) :: before.
Proof.
  intros Hs Hn Hr [user Huser] Hup.
  rewrite share_offline_validated, Huser by done.
  destruct (upload_to_ipfs env) as [[h|msg] sent]; cbn in Hup; [|done].
  injection Hup as ->. cbn [state].
  unfold get_messages_pending. cbn [unlink set_messageQueue messageQueue].
  eexists _, _. split; [reflexivity|].
  assert (MessageQueue.find_ready receiver
            (MessageQueue.save
               (MessageQueue.create (objectId env) (clock env) sender senderName
                  receiver hash (originalname f) (size f)) (messageQueue s))
          ≡ₚ MessageQueue.create (objectId env) (clock env) sender senderName
               receiver hash (originalname f) (size f)
             :: MessageQueue.find_ready receiver (messageQueue s)) as Hperm
    by by apply find_ready_save.
  split; [|exact Hperm].
  by rewrite (Permutation_length Hperm).
Qed.

Lemma share_offline_then_pending_witness :
  ∃ before after,
    get_messages_pending "p2" server0
    = mkResponse 200 (JPending true (length before) before)
    ∧ get_messages_pending "p2"
        (state (post_share_offline (share1 "p2") env_ok server0))
      = mkResponse 200 (JPending true (S (length before)) after)
    ∧ after
      ≡ₚ MessageQueue.create "m3" 2000 "p1" "alice" "p2" "QmNew" "doc.pdf" 1024
         :: before.
Proof.
  apply (share_offline_then_pending upload1 "p1" "alice" "p2" "QmNew" env_ok
           server0); try discriminate.
  - exists bob. reflexivity.
  - reflexivity.
Defined.

(** X2: once its receiver has acknowledged a ready record, the record
    has left that receiver's pending list, whose count is one less, and
    the pending list of every other peer is what it was. *)
Theorem delivered_then_not_pending
    (messageId : string) (now : Z) (s : Server) (message : MessageQueue.t) :
  MessageQueue.findById messageId (messageQueue s) = Some message →
  MessageQueue.status message = "ready" →
  ∃ before after,
    get_messages_pending (MessageQueue.receiverPeerId message) s
    = mkResponse 200 (JPending true (S (length after)) before)
    ∧ get_messages_pending (MessageQueue.receiverPeerId message)
        (snd (post_messages_delivered messageId
                (Some (MessageQueue.receiverPeerId message)) now s))
      = mkResponse 200 (JPending true (length after) after)
    ∧ before ≡ₚ message :: after
    ∧ (∀ peer, peer ≠ MessageQueue.receiverPeerId message →
         get_messages_pending peer
           (snd (post_messages_delivered messageId
                   (Some (MessageQueue.receiverPeerId message)) now s))
         = get_messages_pending peer s).
Proof.
  intros Hfind Hready. unfold post_messages_delivered. rewrite Hfind.
  rewrite decide_False by (intros H; by apply H).
  cbn [snd]. unfold get_messages_pending.
  cbn [set_messageQueue messageQueue].
  unfold MessageQueue.findById in Hfind.
  unfold MessageQueue.findByIdAndUpdate.
  destruct (list_find _ (messageQueue s)) as [[i d]|] eqn:Hi; [|done].
  injection Hfind as ->.
  apply (list_find_key_elem MessageQueue._id) in Hi as (Hi & _ & _).
  assert (MessageQueue.find_ready (MessageQueue.receiverPeerId message)
            (messageQueue s)
          ≡ₚ message
             :: MessageQueue.find_ready (MessageQueue.receiverPeerId message)
                  (<[i := MessageQueue.set_delivered now message]>
                     (messageQueue s))) as Hperm.
  { unfold MessageQueue.find_ready. rewrite !merge_sort_Permutation.
    apply filter_insert_out; [done|done|]. cbn. intros [_ ?]. done. }
  eexists _, _. split_and!.
  - by rewrite (Permutation_length Hperm).
  - reflexivity.
  - exact Hperm.
  - intros peer Hpeer. unfold MessageQueue.find_ready.
    rewrite (filter_insert_neither _ _ _ message); [done|done|..];
      cbn; intros [? _]; done.
Qed.

Lemma delivered_then_not_pending_witness :
  ∃ before after,
    get_messages_pending "p2" server0
    = mkResponse 200 (JPending true (S (length after)) before)
    ∧ get_messages_pending "p2"
        (snd (post_messages_delivered "m1" (Some "p2") 900 server0))
      = mkResponse 200 (JPending true (length after) after)
    ∧ before ≡ₚ doc_pdf "ready" None :: after
    ∧ (∀ peer, peer ≠ "p2" →
         get_messages_pending peer
           (snd (post_messages_delivered "m1" (Some "p2") 900 server0))
         = get_messages_pending peer server0).
Proof.
  apply (delivered_then_not_pending "m1" 900 server0 (doc_pdf "ready" None));
    reflexivity.
Defined.

(** X3: an acknowledgment changes the server only when it answers 200,
    and then only the queue; whatever it answers, every position of the
    queue holds the record it held or that record marked delivered.  So
    the queue keeps its length and no record ever goes back from
    "delivered" to "ready". *)
Theorem delivered_only_marks_delivered
    (messageId : string) (peerId : option string) (now : Z) (s : Server) :
  (code (fst (post_messages_delivered messageId peerId now s)) ≠ 200 →
   snd (post_messages_delivered messageId peerId now s) = s)
  ∧ users (snd (post_messages_delivered messageId peerId now s)) = users s
  ∧ onlineUsers (snd (post_messages_delivered messageId peerId now s))
    = onlineUsers s
  ∧ uploads (snd (post_messages_delivered messageId peerId now s)) = uploads s
  ∧ length (messageQueue (snd (post_messages_delivered messageId peerId now s)))
    = length (messageQueue s)
  ∧ (∀ i m,
       messageQueue s !! i = Some m →
       ∃ m',
         messageQueue (snd (post_messages_delivered messageId peerId now s)) !! i
         = Some m'
         ∧ (m' = m ∨ m' = MessageQueue.set_delivered now m)
         ∧ (MessageQueue.status m = "delivered" →
            MessageQueue.status m' = "delivered")
         ∧ (MessageQueue.status m' = "ready" →
            MessageQueue.status m = "ready")).
Proof.
  unfold post_messages_delivered.
  destruct (MessageQueue.findById messageId (messageQueue s)) as [message|];
    [|by split_and!; eauto 10].
  destruct (decide (Some (MessageQueue.receiverPeerId message) ≠ peerId));
    [by split_and!; eauto 10|].
  cbn [fst snd code set_messageQueue users onlineUsers uploads messageQueue].
  unfold MessageQueue.findByIdAndUpdate.
  destruct (list_find _ (messageQueue s)) as [[j d]|] eqn:Hj;
    [|by split_and!; eauto 10].
  apply (list_find_key_elem MessageQueue._id) in Hj as (Hj & _ & _).
  split_and!; [done..|by rewrite length_insert|].
  intros i m Hi. destruct (decide (i = j)) as [->|Hne].
  - assert (m = d) as -> by congruence.
    exists (MessageQueue.set_delivered now d).
    rewrite list_lookup_insert_eq by (by eapply lookup_lt_Some).
    split_and!; [done|by right|done|done].
  - exists m. rewrite list_lookup_insert_ne by done. by split_and!; [|left|..].
Qed.

Lemma delivered_only_marks_delivered_witness :
  snd (post_messages_delivered "m1" (Some "p3") 900 server0) = server0
  ∧ ∃ m',
      messageQueue
        (snd (post_messages_delivered "m2" (Some "p2") 900 server_delivered))
        !! 0 = Some m'
      ∧ (m' = doc_pdf "delivered" (Some 100%Z)
         ∨ m' = MessageQueue.set_delivered 900 (doc_pdf "delivered" (Some 100%Z)))
      ∧ ("delivered" = "delivered" → MessageQueue.status m' = "delivered")
      ∧ (MessageQueue.status m' = "ready" → "delivered" = "ready").
Proof.
  split.
  - apply (delivered_only_marks_delivered "m1" (Some "p3") 900 server0).
    discriminate.
  - apply (delivered_only_marks_delivered "m2" (Some "p2") 900 server_delivered).
    reflexivity.
Defined.

(** X4: the temp file of an offline share is removed exactly when the
    handler got as far as the upload: it is gone after a 200 or a 500
    and still in the upload directory after a 400 (a missing field) or a
    404 (an unknown receiver). *)
Theorem share_offline_temp_file
    (f : file) (sender senderName receiver : option string)
    (env : environment) (s : Server) :
  path f ∈ uploads s →
  (path f ∈ uploads (state (post_share_offline
                              (mkShareRequest (Some f) sender senderName
                                 receiver) env s))
   ↔ code (res (post_share_offline
                  (mkShareRequest (Some f) sender senderName receiver) env s))
     = 400
     ∨ code (res (post_share_offline
                    (mkShareRequest (Some f) sender senderName receiver) env s))
       = 404)
  ∧ (code (res (post_share_offline
                  (mkShareRequest (Some f) sender senderName receiver) env s))
     ∈ [200; 400; 404; 500]).
Proof.
  intros Hin.
  assert (∀ u : gset string, path f ∉ u ∖ {[path f]}) as Hgone.
  { intros u [_ Hn]%elem_of_difference. apply Hn. by apply elem_of_singleton. }
  unfold post_share_offline.
  cbn [req_file body_senderPeerId body_senderUsername body_receiverPeerId].
  destruct (_ || _); [cbn; split; [tauto|set_solver]|].
  destruct (User.findOne _ (users s)); [|cbn; split; [tauto|set_solver]].
  destruct (upload_to_ipfs env) as [[hash|msg] sent]; cbn [res state code].
  - split; [|set_solver]. split; [|by intros [?|?]].
    intros Hf. by apply Hgone in Hf.
  - split; [|set_solver]. split; [|by intros [?|?]].
    intros Hf. destruct (bool_decide _); by apply Hgone in Hf.
Qed.

Lemma share_offline_temp_file_witness :
  ("uploads/file-1.pdf"
   ∈ uploads (state (post_share_offline (share1 "p9") env_ok server0))
   ↔ code (res (post_share_offline (share1 "p9") env_ok server0)) = 400
     ∨ code (res (post_share_offline (share1 "p9") env_ok server0)) = 404)
  ∧ code (res (post_share_offline (share1 "p9") env_ok server0))
    ∈ [200; 400; 404; 500].
Proof.
  apply (share_offline_temp_file upload1 (Some "p1") (Some "alice") (Some "p9")
           env_ok server0).
  exact (proj2 (elem_of_singleton (C := gset string) _ _) eq_refl).
Defined.

(** X5: an offline share never touches the users or the presence
    collection, never removes or rewrites a queued record (the old queue
    is a prefix of the new one, at most one record longer) and never
    adds a file to the upload directory. *)
Theorem share_offline_only_appends
    (req : share_request) (env : environment) (s : Server) :
  users (state (post_share_offline req env s)) = users s
  ∧ onlineUsers (state (post_share_offline req env s)) = onlineUsers s
  ∧ messageQueue s `prefix_of` messageQueue (state (post_share_offline req env s))
  ∧ (length (messageQueue (state (post_share_offline req env s)))
     ≤ S (length (messageQueue s)))%nat
  ∧ uploads (state (post_share_offline req env s)) ⊆ uploads s.
Proof.
  unfold post_share_offline.
  destruct (req_file req) as [f|]; [|by split_and!; eauto].
  destruct (_ || _); [by split_and!; eauto|].
  destruct (User.findOne _ (users s)); [|by split_and!; eauto].
  destruct (upload_to_ipfs env) as [[hash|msg] sent]; cbn [state].
  - cbn [unlink set_messageQueue users onlineUsers messageQueue uploads].
    unfold MessageQueue.save. split_and!; [done|done| | |].
    + by apply prefix_app_r.
    + rewrite length_app. cbn. lia.
    + apply subseteq_difference_l. done.
  - destruct (bool_decide _);
      cbn [unlink users onlineUsers messageQueue uploads];
      split_and!; try done; try lia;
      repeat apply subseteq_difference_l; done.
Qed.

(** * Further properties of presence *)

(** The socket heartbeat leaves the stored status of every peer alone. *)
Lemma socket_heartbeat_status (currentUser : option userData)
    (peerId p : string) (now : Z) (s : Server) :
  OnlineUsers.status
    <$> OnlineUsers.findOne p (onlineUsers (socket_heartbeat currentUser peerId now s))
  = OnlineUsers.status <$> OnlineUsers.findOne p (onlineUsers s).
Proof.
  unfold socket_heartbeat. destruct currentUser as [cu|]; [|done].
  destruct (decide (ud_peerId cu = peerId)); [|done].
  cbn [set_onlineUsers onlineUsers].
  destruct (OnlineUsers.findOne peerId (onlineUsers s)) as [d|] eqn:Hfind.
  - destruct (findOne_findOneAndUpdate peerId p (OnlineUsers.set_lastSeen now)
                (onlineUsers s) d Hfind eq_refl) as (_ & -> & _).
    destruct (decide (p = peerId)) as [->|]; [|done]. by rewrite Hfind.
  - by rewrite findOneAndUpdate_absent.
Qed.

Lemma socket_heartbeat_users (currentUser : option userData)
    (peerId : string) (now : Z) (s : Server) :
  users (socket_heartbeat currentUser peerId now s) = users s.
Proof.
  unfold socket_heartbeat. destruct currentUser as [cu|]; [|done].
  by destruct (decide (ud_peerId cu = peerId)).
Qed.

(** X6: a peer that was marked offline is reported offline at every
    later moment, and the heartbeats of its socket do not bring it back:
    they refresh [lastSeen] and leave the stored status "offline". *)
Theorem offline_peer_stays_offline_under_heartbeats
    (peerId : string) (t : Z) (s : Server) (user : User.t)
    (currentUser : option userData) (beats : list (string * Z)) (now : Z) :
  peerId ≠ "" →
  User.findOne peerId (users s) = Some user →
  is_Some (OnlineUsers.findOne peerId (onlineUsers s)) →
  ∃ lastSeen,
    get_user_status peerId now
      (foldl (λ acc beat, socket_heartbeat currentUser (fst beat) (snd beat) acc)
         (snd (post_user_mark_offline (Some peerId) t s)) beats)
    = mkResponse 200 (JUserStatus false (Some lastSeen) (User.username user)).
Proof.
  intros Hp Huser [d Hd].
  pose proof (mark_offline_presence := findOne_findOneAndUpdate peerId peerId
    (λ d, OnlineUsers.set_lastSeen t (OnlineUsers.set_status "offline" d))
    (onlineUsers s) d Hd eq_refl).
  destruct mark_offline_presence as (Hres & Hafter & _).
  rewrite decide_True in Hafter by done.
  assert (∃ s1, snd (post_user_mark_offline (Some peerId) t s) = s1
                ∧ users s1 = users s
                ∧ (OnlineUsers.status
                     <$> OnlineUsers.findOne peerId (onlineUsers s1))
                  = Some "offline") as (s1 & -> & Hu1 & Hst1).
  { unfold post_user_mark_offline.
    assert (truthy (Some peerId) = true) as -> by by apply bool_decide_eq_true.
    change (str (Some peerId)) with peerId. cbn [negb].
    destruct (OnlineUsers.findOneAndUpdate peerId _ (onlineUsers s))
      as [result c] eqn:Hcall.
    cbn [fst snd] in Hres, Hafter. subst result. cbv beta iota.
    eexists. split; [reflexivity|]. cbn [snd set_onlineUsers users onlineUsers].
    by rewrite Hafter. }
  clear Hres Hafter Hd d.
  revert s1 Hu1 Hst1. induction beats as [|[q tq] beats IH]; intros s1 Hu1 Hst1.
  - cbn [foldl]. unfold get_user_status. rewrite Hu1, Huser.
    destruct (OnlineUsers.findOne peerId (onlineUsers s1)) as [d|]; [|done].
    injection Hst1 as Hst1. exists (OnlineUsers.lastSeen d). cbn.
    by rewrite Hst1.
  - cbn [foldl fst snd]. apply IH.
    + by rewrite socket_heartbeat_users.
    + by rewrite socket_heartbeat_status.
Qed.

Lemma offline_peer_stays_offline_under_heartbeats_witness :
  ∃ lastSeen,
    get_user_status "p1" 5001
      (foldl (λ acc beat,
                socket_heartbeat
                  (Some (mkUserData "p1" "alice" "alice@example.org"))
                  (fst beat) (snd beat) acc)
         (snd (post_user_mark_offline (Some "p1") 3000 server0))
         [("p1", 4000%Z); ("p1", 5000%Z)])
    = mkResponse 200 (JUserStatus false (Some lastSeen) "alice").
Proof.
  apply (offline_peer_stays_offline_under_heartbeats "p1" 3000 server0 alice).
  - discriminate.
  - reflexivity.
  - eexists. reflexivity.
Defined.

Lemma list_find_snoc {A} (P : A → Prop) `{∀ x, Decision (P x)}
    (c : list A) (x : A) :
  list_find P (c ++ [x])
  = match list_find P c with
    | Some found => Some found
    | None => if decide (P x) then Some (length c, x) else None
    end.
Proof.
  destruct (list_find P c) as [[i y]|] eqn:Hc.
  - by apply list_find_app_l.
  - rewrite list_find_app_r by done. cbn.
    by destruct (decide (P x)).
Qed.

(** After the upsert the peer of [doc] has exactly [doc], every other
    peer what it had, and the collection has grown only if the peer had
    no document; a second upsert of [doc] changes nothing. *)
Lemma findOne_upsert (doc : OnlineUsers.t) (q : string)
    (c : list OnlineUsers.t) :
  OnlineUsers.findOne q (snd (OnlineUsers_upsert doc c))
  = (if decide (q = OnlineUsers.peerId doc) then Some doc
     else OnlineUsers.findOne q c)
  ∧ length (snd (OnlineUsers_upsert doc c))
    = (if OnlineUsers.findOne (OnlineUsers.peerId doc) c is Some _
       then length c else S (length c))
  ∧ OnlineUsers_upsert doc (snd (OnlineUsers_upsert doc c))
    = (doc, snd (OnlineUsers_upsert doc c)).
Proof.
  unfold OnlineUsers.findOne, OnlineUsers_upsert.
  destruct (list_find _ c) as [[i d]|] eqn:Hfind; cbn [snd fmap option_fmap option_map].
  - pose proof (list_find_key_elem OnlineUsers.peerId _ _ _ _ Hfind)
      as (Hi & Hkey & _).
    assert (∀ k, list_find (λ x, OnlineUsers.peerId x = k) (<[i := doc]> c)
                 = if decide (k = OnlineUsers.peerId doc) then Some (i, doc)
                   else list_find (λ x, OnlineUsers.peerId x = k) c) as Hafter.
    { intros k. by apply (list_find_key_insert OnlineUsers.peerId _ k c i d). }
    split_and!.
    + rewrite Hafter. by destruct (decide _).
    + by rewrite length_insert.
    + rewrite Hafter, decide_True by done. by rewrite list_insert_insert_eq.
  - split_and!.
    + rewrite list_find_snoc.
      destruct (decide (q = OnlineUsers.peerId doc)) as [->|Hq].
      * rewrite Hfind. by rewrite decide_True.
      * rewrite decide_False by congruence.
        by destruct (list_find (λ d, OnlineUsers.peerId d = q) c) as [[j e]|].
    + rewrite length_app. cbn. lia.
    + rewrite list_find_snoc, Hfind, decide_True by done.
      rewrite insert_app_r_alt, Nat.sub_diag by done. done.
Qed.

(** X7: update-status is an upsert by peer id: after it the peer has
    exactly one new state (online, last seen now, the given name and
    address), every other peer's record is untouched, the collection is
    one longer only when the peer had no record, and sending the same
    request again at the same time changes nothing. *)
Theorem update_status_upserts
    (peerId username email : string) (now : Z) (s : Server) :
  peerId ≠ "" → username ≠ "" → email ≠ "" →
  ∃ s',
    snd (post_user_update_status (Some peerId) (Some username) (Some email)
           now s) = s'
    ∧ status_code (fst (post_user_update_status (Some peerId) (Some username)
                          (Some email) now s)) = 200
    ∧ OnlineUsers.findOne peerId (onlineUsers s')
      = Some (OnlineUsers.mk peerId (Some username) (Some email) "online" now)
    ∧ (∀ q, q ≠ peerId →
         OnlineUsers.findOne q (onlineUsers s')
         = OnlineUsers.findOne q (onlineUsers s))
    ∧ length (onlineUsers s')
      = (if OnlineUsers.findOne peerId (onlineUsers s) is Some _
         then length (onlineUsers s) else S (length (onlineUsers s)))
    ∧ snd (post_user_update_status (Some peerId) (Some username) (Some email)
             now s') = s'
    ∧ users s' = users s ∧ messageQueue s' = messageQueue s
    ∧ uploads s' = uploads s.
Proof.
  intros Hp Hu He. unfold post_user_update_status. cbn [truthy].
  rewrite !bool_decide_eq_true_2 by done. cbn [negb orb].
  change (str (Some peerId)) with peerId.
  change (str (Some username)) with username.
  change (str (Some email)) with email.
  set (doc := OnlineUsers.mk peerId (Some username) (Some email) "online" now).
  assert (∀ q, _) as Hup by (intros q; exact (findOne_upsert doc q (onlineUsers s))).
  destruct (OnlineUsers_upsert doc (onlineUsers s)) as [onlineUser c] eqn:Hcall.
  cbn [fst snd] in *. eexists. split; [reflexivity|].
  cbn [set_onlineUsers onlineUsers users messageQueue uploads].
  destruct (Hup peerId) as (Hself & Hlen & Hagain).
  split_and!; [done| | |done| |done..].
  - by rewrite Hself, decide_True.
  - intros q Hq. destruct (Hup q) as (-> & _ & _). by rewrite decide_False.
  - by rewrite Hagain.
Qed.

Lemma update_status_upserts_witness :
  ∃ s',
    snd (post_user_update_status (Some "p2") (Some "bob")
           (Some "bob@example.org") 7000 server0) = s'
    ∧ status_code (fst (post_user_update_status (Some "p2") (Some "bob")
                          (Some "bob@example.org") 7000 server0)) = 200
    ∧ OnlineUsers.findOne "p2" (onlineUsers s')
      = Some (OnlineUsers.mk "p2" (Some "bob") (Some "bob@example.org")
                "online" 7000)
    ∧ (∀ q, q ≠ "p2" →
         OnlineUsers.findOne q (onlineUsers s')
         = OnlineUsers.findOne q (onlineUsers server0))
    ∧ length (onlineUsers s') = 2
    ∧ snd (post_user_update_status (Some "p2") (Some "bob")
             (Some "bob@example.org") 7000 s') = s'
    ∧ users s' = users server0 ∧ messageQueue s' = messageQueue server0
    ∧ uploads s' = uploads server0.
Proof.
  apply (update_status_upserts "p2" "bob" "bob@example.org" 7000 server0);
    discriminate.
Defined.

(** X8: after update-status at time [t], the status query reports a
    registered peer online exactly while less than two minutes have
    passed since [t], with [t] as its last-seen time. *)
Theorem update_status_then_status
    (peerId username email : string) (t now : Z) (s : Server) (user : User.t) :
  peerId ≠ "" → username ≠ "" → email ≠ "" →
  User.findOne peerId (users s) = Some user →
  get_user_status peerId now
    (snd (post_user_update_status (Some peerId) (Some username) (Some email)
            t s))
  = mkResponse 200
      (JUserStatus (bool_decide (now - t < 2 * 60 * 1000)%Z) (Some t)
         (User.username user)).
Proof.
  intros Hp Hu He Huser. unfold post_user_update_status. cbn [truthy].
  rewrite !bool_decide_eq_true_2 by done. cbn [negb orb].
  change (str (Some peerId)) with peerId.
  set (doc := OnlineUsers.mk peerId _ _ "online" t).
  destruct (findOne_upsert doc peerId (onlineUsers s)) as (Hself & _ & _).
  destruct (OnlineUsers_upsert doc (onlineUsers s)) as [onlineUser c].
  cbn [fst snd] in *. unfold get_user_status.
  cbn [set_onlineUsers onlineUsers users]. rewrite Huser, Hself.
  rewrite decide_True by done. cbn.
  do 2 f_equal. apply bool_decide_ext. lia.
Qed.

Lemma update_status_then_status_witness :
  get_user_status "p2" 126999
    (snd (post_user_update_status (Some "p2") (Some "bob")
            (Some "bob@example.org") 7000 server0))
  = mkResponse 200
      (JUserStatus (bool_decide (126999 - 7000 < 2 * 60 * 1000)%Z) (Some 7000%Z)
         "bob").
Proof.
  apply (update_status_then_status "p2" "bob" "bob@example.org" 7000 126999
           server0 bob); (discriminate || reflexivity).
Defined.

Lemma User_findOne_elem (peerId : string) (c : list User.t) (user : User.t) :
  User.findOne peerId c = Some user → user ∈ c ∧ User.peerId user = peerId.
Proof.
  unfold User.findOne.
  destruct (list_find _ c) as [[i u]|] eqn:Hfind; [|done]. intros [= ->].
  by apply (list_find_key_elem User.peerId) in Hfind as (_ & ? & ?).
Qed.

(** X9: the debug listing reads the stored status and never looks at
    the age of the heartbeat: a registered peer stored as online whose
    last heartbeat is two minutes old or older is offline for the status
    query, while the listing shows it with status "online" and counts it
    in [onlineCount]. *)
Theorem debug_listing_ignores_staleness
    (peerId : string) (now : Z) (s : Server) (user : User.t)
    (ou : OnlineUsers.t) :
  User.findOne peerId (users s) = Some user →
  OnlineUsers.findOne peerId (onlineUsers s) = Some ou →
  OnlineUsers.status ou = "online" →
  (2 * 60 * 1000 ≤ now - OnlineUsers.lastSeen ou)%Z →
  get_user_status peerId now s
  = mkResponse 200
      (JUserStatus false (Some (OnlineUsers.lastSeen ou)) (User.username user))
  ∧ ∃ entries onlineCount entry,
      get_debug_users s
      = mkReply 200
          (VObj [("totalUsers", VNum (Z.of_nat (length (users s))));
                 ("onlineCount", VNum onlineCount);
                 ("users", VArr entries)])
      ∧ length entries = length (users s)
      ∧ (1 ≤ onlineCount)%Z
      ∧ entry ∈ entries
      ∧ field "peerId" entry = Some (VStr peerId)
      ∧ field "status" entry = Some (VStr "online")
      ∧ field "lastSeen" entry = Some (VNum (OnlineUsers.lastSeen ou)).
Proof.
  intros Huser Hou Hst Hstale. split.
  - unfold get_user_status. rewrite Huser, Hou. cbn. rewrite Hst.
    rewrite bool_decide_eq_true_2 by done.
    by rewrite bool_decide_eq_false_2 by lia.
  - apply User_findOne_elem in Huser as (Hin & Hpeer).
    eexists _, _, (debug_entry (onlineUsers s) user).
    split; [reflexivity|]. split_and!.
    + by rewrite length_fmap.
    + unfold OnlineUsers.findOne in Hou.
      destruct (list_find _ (onlineUsers s)) as [[i d]|] eqn:Hfind; [|done].
      injection Hou as ->.
      apply (list_find_key_elem OnlineUsers.peerId) in Hfind as (_ & _ & Helem).
      assert (ou ∈ filter (λ u, OnlineUsers.status u = "online") (onlineUsers s))
        as Hfil by by apply list_elem_of_filter.
      destruct (filter _ (onlineUsers s)); [by apply elem_of_nil in Hfil|].
      cbn [length]. lia.
    + by apply list_elem_of_fmap_2.
    + cbn. by rewrite Hpeer.
    + unfold debug_entry. rewrite Hpeer.
      unfold OnlineUsers.findOne in Hou. rewrite Hou. cbn. by rewrite Hst.
    + unfold debug_entry. rewrite Hpeer.
      unfold OnlineUsers.findOne in Hou. by rewrite Hou.
Qed.

Lemma debug_listing_ignores_staleness_witness :
  get_user_status "p1" 121000 server0
  = mkResponse 200 (JUserStatus false (Some 1000%Z) "alice")
  ∧ ∃ entries onlineCount entry,
      get_debug_users server0
      = mkReply 200
          (VObj [("totalUsers", VNum 3); ("onlineCount", VNum onlineCount);
                 ("users", VArr entries)])
      ∧ length entries = 3
      ∧ (1 ≤ onlineCount)%Z
      ∧ entry ∈ entries
      ∧ field "peerId" entry = Some (VStr "p1")
      ∧ field "status" entry = Some (VStr "online")
      ∧ field "lastSeen" entry = Some (VNum 1000).
Proof.
  apply (debug_listing_ignores_staleness "p1" 121000 server0 alice
           (OnlineUsers.mk "p1" (Some "alice") (Some "alice@example.org")
              "online" 1000)); (reflexivity || (intros H; discriminate H)).
Defined.

(** X10: a socket connection writes to the presence collection only:
    whatever its events, the users, the queue and the upload directory
    are untouched; and as long as no [user-online] event has arrived,
    heartbeats, [user-offline] and the disconnect change nothing at all
    (whatever the statics [markOnline] and [markOffline] do). *)
Theorem socket_session_needs_user_online
    (markOnline : string → option string → option string → Z →
                  list OnlineUsers.t → list OnlineUsers.t)
    (markOffline : string → Z → list OnlineUsers.t → list OnlineUsers.t)
    (events : list (socket_event * Z)) (currentUser : option userData)
    (s : Server) :
  (users (snd (socket_run markOnline markOffline events (currentUser, s)))
   = users s
   ∧ messageQueue (snd (socket_run markOnline markOffline events (currentUser, s)))
     = messageQueue s
   ∧ uploads (snd (socket_run markOnline markOffline events (currentUser, s)))
     = uploads s)
  ∧ (Forall (λ ev, ∀ userData, fst ev ≠ UserOnline userData) events →
     socket_run markOnline markOffline events (None, s) = (None, s)).
Proof.
  split.
  - unfold socket_run. revert currentUser s.
    induction events as [|[ev t] events IH]; intros currentUser s; [done|].
    cbn [foldl fst snd].
    destruct (socket_on markOnline markOffline ev t (currentUser, s))
      as [cu' s'] eqn:Hstep.
    destruct (IH cu' s') as (-> & -> & ->).
    unfold socket_on in Hstep.
    destruct ev as [ud|q|q|].
    + by injection Hstep as <- <-.
    + injection Hstep as <- <-. unfold socket_heartbeat.
      destruct currentUser as [cu|]; [|done].
      by destruct (decide (ud_peerId cu = q)).
    + destruct currentUser as [cu|]; [|by injection Hstep as <- <-].
      destruct (decide (ud_peerId cu = q)); by injection Hstep as <- <-.
    + destruct currentUser as [cu|]; by injection Hstep as <- <-.
  - unfold socket_run. induction events as [|[ev t] events IH]; [done|].
    intros [Hev Hrest]%Forall_cons. cbn [foldl fst snd].
    destruct ev as [ud|q|q|]; [by destruct (Hev ud)|by apply IH..].
Qed.

Lemma socket_session_needs_user_online_witness :
  socket_run OnlineUsers.markOnline
    (λ peer now c,
       snd (OnlineUsers.findOneAndUpdate peer
              (λ d, OnlineUsers.set_lastSeen now
                      (OnlineUsers.set_status "offline" d)) c))
    [(Heartbeat "p1", 4000%Z); (UserOffline "p1", 5000%Z); (Disconnect, 6000%Z)]
    (None, server0)
  = (None, server0).
Proof.
  apply (socket_session_needs_user_online OnlineUsers.markOnline _ _ None
           server0).
  repeat constructor; discriminate.
Defined.

(** * The e-mail pattern *)

Section email.
Local Open Scope list_scope.

Lemma lang_Cat_inv (r1 r2 : regex) (s : list N) :
  lang (Cat r1 r2) s ↔ ∃ s1 s2, s = s1 ++ s2 ∧ lang r1 s1 ∧ lang r2 s2.
Proof.
  split.
  - inversion 1; subst. eauto.
  - intros (s1 & s2 & -> & ? & ?). by constructor.
Qed.

Lemma lang_Class_inv (p : N → bool) (s : list N) :
  lang (Class p) s ↔ ∃ u, s = [u] ∧ p u = true.
Proof.
  split.
  - inversion 1; subst. eauto.
  - intros (u & -> & ?). by constructor.
Qed.

Lemma lang_Star_cons_inv (r : regex) (u : N) (s : list N) :
  lang (Star r) (u :: s) →
  ∃ s1 s2, s = s1 ++ s2 ∧ lang r (u :: s1) ∧ lang (Star r) s2.
Proof.
  intros H. remember (Star r) as r' eqn:Hr. remember (u :: s) as w eqn:Hw.
  induction H as [| | | | |r0|r0 s1 s2 H1 _ H2 IH2]; try discriminate.
  injection Hr as ->. destruct s1 as [|v s1].
  - apply IH2; done.
  - injection Hw as -> <-. eauto.
Qed.

Lemma nullable_lang (r : regex) : nullable r = true ↔ lang r [].
Proof.
  induction r as [| |p|r1 IH1 r2 IH2|r1 IH1 r2 IH2|r IH]; cbn.
  - split; [done|inversion 1].
  - split; [constructor|done].
  - split; [done|inversion 1].
  - rewrite orb_true_iff, IH1, IH2. split.
    + intros [?|?]; by constructor.
    + inversion 1; subst; auto.
  - rewrite andb_true_iff, IH1, IH2, lang_Cat_inv. split.
    + intros [? ?]. by exists [], [].
    + intros (s1 & s2 & Hnil & ? & ?). symmetry in Hnil.
      apply app_eq_nil in Hnil as [-> ->]. done.
  - split; [constructor|done].
Qed.

Lemma derive_lang (u : N) (r : regex) (s : list N) :
  lang (derive u r) s ↔ lang r (u :: s).
Proof.
  revert s. induction r as [| |p|r1 IH1 r2 IH2|r1 IH1 r2 IH2|r IH]; intros s; cbn.
  - split; inversion 1.
  - split; inversion 1.
  - rewrite lang_Class_inv. destruct (p u) eqn:Hp; split.
    + inversion 1; subst. eauto.
    + intros (v & [= <- ->] & _). constructor.
    + inversion 1.
    + intros (v & [= <- ->] & ?). congruence.
  - split.
    + inversion 1; subst; [apply lang_Alt_l, IH1|apply lang_Alt_r, IH2]; done.
    + inversion 1; subst; [apply lang_Alt_l, IH1|apply lang_Alt_r, IH2]; done.
  - assert (lang (Cat (derive u r1) r2) s
            ↔ ∃ s1 s2, s = s1 ++ s2 ∧ lang r1 (u :: s1) ∧ lang r2 s2) as Hfirst.
    { rewrite lang_Cat_inv. by setoid_rewrite IH1. }
    rewrite (lang_Cat_inv r1 r2 (u :: s)).
    destruct (nullable r1) eqn:Hnull.
    + split.
      * inversion 1 as [| |? ? ? Hl|? ? ? Hr| | |]; subst.
        -- apply Hfirst in Hl as (s1 & s2 & -> & ? & ?).
           by exists (u :: s1), s2.
        -- apply IH2 in Hr. apply nullable_lang in Hnull. by exists [], (u :: s).
      * intros (s1 & s2 & Heq & H1 & H2). destruct s1 as [|v s1].
        -- cbn in Heq. subst s2. by apply lang_Alt_r, IH2.
        -- injection Heq as <- ->. apply lang_Alt_l, Hfirst. eauto.
    + rewrite Hfirst. split.
      * intros (s1 & s2 & -> & ? & ?). by exists (u :: s1), s2.
      * intros (s1 & s2 & Heq & H1 & H2). destruct s1 as [|v s1].
        -- apply nullable_lang in H1. congruence.
        -- injection Heq as <- ->. eauto.
  - rewrite lang_Cat_inv. split.
    + intros (s1 & s2 & -> & H1%IH & H2).
      by apply (lang_Star_cons r (u :: s1) s2).
    + intros (s1 & s2 & -> & H1 & H2)%lang_Star_cons_inv.
      exists s1, s2. by rewrite IH.
Qed.

(** The matcher decides the words of the expression. *)
Lemma test_lang (r : regex) (s : list N) : test r s = true ↔ lang r s.
Proof.
  revert r. induction s as [|u s IH]; intros r; cbn.
  - apply nullable_lang.
  - by rewrite IH, derive_lang.
Qed.

Lemma lang_Star_Class (p : N → bool) (s : list N) :
  lang (Star (Class p)) s ↔ Forall (λ u, p u = true) s.
Proof.
  split.
  - induction s as [|u s IH]; [constructor|].
    intros (s1 & s2 & -> & H1 & H2)%lang_Star_cons_inv.
    apply lang_Class_inv in H1 as (v & [= <- ->] & Hp).
    constructor; [done|]. by apply IH.
  - induction 1 as [|u s Hu _ IH]; [constructor|].
    apply (lang_Star_cons _ [u] s); [by constructor|done].
Qed.

Lemma lang_Plus_Class (p : N → bool) (s : list N) :
  lang (Plus (Class p)) s ↔ s ≠ [] ∧ Forall (λ u, p u = true) s.
Proof.
  unfold Plus. rewrite lang_Cat_inv. split.
  - intros (s1 & s2 & -> & (u & -> & Hu)%lang_Class_inv & Hs%lang_Star_Class).
    split; [done|]. by constructor.
  - intros [Hne Hall]. destruct s as [|u s]; [done|].
    apply Forall_cons in Hall as [Hu Hs].
    exists [u], s. split_and!; [done|by constructor|by apply lang_Star_Class].
Qed.

Lemma not_space_or_at_true (u : N) :
  not_space_or_at u = true ↔ is_white_space u = false ∧ u ≠ 64%N.
Proof.
  unfold not_space_or_at.
  by rewrite andb_true_iff, !negb_true_iff, N.eqb_neq.
Qed.

Lemma Forall_not_space_or_at (s : list N) :
  Forall (λ u, not_space_or_at u = true) s
  ↔ Forall (λ u, is_white_space u = false ∧ u ≠ 64%N) s.
Proof. apply Forall_iff. intros u. apply not_space_or_at_true. Qed.

(** What an accepted address is made of. *)
Lemma isValidEmail_parts (email : string) :
  isValidEmail email = true →
  ∃ a b c : list N,
    code_units email = a ++ [64%N] ++ b ++ [46%N] ++ c
    ∧ a ≠ [] ∧ b ≠ [] ∧ c ≠ []
    ∧ Forall (λ u, is_white_space u = false ∧ u ≠ 64%N) (a ++ b ++ c).
Proof.
  unfold isValidEmail, emailRegex. rewrite test_lang.
  intros (a & w1 & -> & [Ha Haa]%lang_Plus_Class & H1)%lang_Cat_inv.
  apply lang_Cat_inv in H1
    as (at_ & w2 & -> & (u & -> & Hu%N.eqb_eq)%lang_Class_inv & H2).
  apply lang_Cat_inv in H2 as (b & w3 & -> & [Hb Hbb]%lang_Plus_Class & H3).
  apply lang_Cat_inv in H3
    as (dot_ & c & -> & (v & -> & Hv%N.eqb_eq)%lang_Class_inv
        & [Hc Hcc]%lang_Plus_Class).
  subst. exists a, b, c. split_and!; [done..|].
  rewrite !Forall_app. by rewrite <- !Forall_not_space_or_at.
Qed.

(** X11: [isValidEmail] accepts exactly the strings that read
    local [@] domain [.] rest, where the three parts are non-empty and
    made of code units that are neither white space nor [@] (the domain
    and the rest may hold further dots). *)
Theorem isValidEmail_shape (email : string) :
  isValidEmail email = true
  ↔ ∃ a b c : list N,
      code_units email = a ++ [64%N] ++ b ++ [46%N] ++ c
      ∧ a ≠ [] ∧ b ≠ [] ∧ c ≠ []
      ∧ Forall (λ u, is_white_space u = false ∧ u ≠ 64%N) (a ++ b ++ c).
Proof.
  split; [apply isValidEmail_parts|].
  intros (a & b & c & Hunits & Ha & Hb & Hc & Habc).
  unfold isValidEmail, emailRegex. rewrite test_lang, Hunits.
  rewrite !Forall_app, <- !Forall_not_space_or_at in Habc.
  destruct Habc as (Haa & Hbb & Hcc).
  apply lang_Cat; [by apply lang_Plus_Class|].
  apply lang_Cat; [by constructor|].
  apply lang_Cat; [by apply lang_Plus_Class|].
  apply lang_Cat; [by constructor|]. by apply lang_Plus_Class.
Qed.

(** X12: an accepted address holds exactly one [@], no white space,
    and at least five code units. *)
Theorem isValidEmail_one_at (email : string) :
  isValidEmail email = true →
  length (filter (λ u, u = 64%N) (code_units email)) = 1
  ∧ Forall (λ u, is_white_space u = false) (code_units email)
  ∧ (5 ≤ length (code_units email))%nat.
Proof.
  intros (a & b & c & -> & Ha & Hb & Hc & Habc)%isValidEmail_parts.
  rewrite !Forall_app in Habc. destruct Habc as (Haa & Hbb & Hcc).
  assert (∀ s, Forall (λ u, is_white_space u = false ∧ u ≠ 64%N) s →
               filter (λ u, u = 64%N) s = []
               ∧ Forall (λ u, is_white_space u = false) s) as Hpart.
  { intros s Hs. split.
    - induction Hs as [|u s [_ Hu] _ IH]; [done|].
      by rewrite filter_cons_False.
    - eapply Forall_impl; [exact Hs|]. by intros u [? _]. }
  destruct (Hpart a Haa) as [Hfa Hwa], (Hpart b Hbb) as [Hfb Hwb],
    (Hpart c Hcc) as [Hfc Hwc].
  split_and!.
  - rewrite !filter_app, Hfa, Hfb, Hfc. done.
  - rewrite !Forall_app. split_and!; try done; by repeat constructor.
  - rewrite !length_app. destruct a, b, c; cbn; try done; lia.
Qed.

Lemma isValidEmail_one_at_witness :
  length (filter (λ u, u = 64%N) (code_units "alice@example.org")) = 1
  ∧ Forall (λ u, is_white_space u = false) (code_units "alice@example.org")
  ∧ (5 ≤ length (code_units "alice@example.org"))%nat.
Proof. apply (isValidEmail_one_at "alice@example.org"). reflexivity. Defined.

End email.

(** * One-time codes *)

Lemma isValidEmail_truthy (email : string) :
  isValidEmail email = true → truthy (Some email) = true.
Proof.
  intros Hvalid. apply bool_decide_eq_true. by intros ->.
Qed.

(** A send that goes through stores the code for five minutes. *)
Lemma send_otp_success (email : string) (env : otp_environment) (now : Z)
    (db : gmap string (string * Z)) :
  isValidEmail email = true → setex_ok env = true → sendMail env = None →
  post_send_otp (Some email) env now db
  = (mkReply 200 (VObj [("message", VStr "OTP sent successfully")]),
     <[email := (generated_otp env, (now + 300 * 1000)%Z)]> db).
Proof.
  intros Hvalid Hsetex Hmail. unfold post_send_otp.
  rewrite isValidEmail_truthy by done. change (str (Some email)) with email.
  by rewrite Hvalid, Hsetex, Hmail.
Qed.

(** X13: a code that was sent verifies once: within five minutes of a
    successful send, verify-otp with that address and code answers 200
    and removes the code, so that the same request repeated is refused
    as "OTP expired or invalid". *)
Theorem otp_verifies_once
    (email : string) (send verify again : otp_environment) (t0 t1 t2 : Z)
    (db : gmap string (string * Z)) :
  isValidEmail email = true → generated_otp send ≠ "" →
  setex_ok send = true → sendMail send = None →
  get_ok verify = true → del_ok verify = true → get_ok again = true →
  (t0 ≤ t1 < t0 + 300000)%Z →
  ∃ db1 db2,
    post_send_otp (Some email) send t0 db
    = (mkReply 200 (VObj [("message", VStr "OTP sent successfully")]), db1)
    ∧ post_verify_otp (Some email) (Some (generated_otp send)) verify t1 db1
      = (mkReply 200 (VObj [("message", VStr "OTP verified successfully")]), db2)
    ∧ db2 !! email = None
    ∧ post_verify_otp (Some email) (Some (generated_otp send)) again t2 db2
      = (mkReply 400 (error_body "OTP expired or invalid"), db2).
Proof.
  intros Hvalid Hotp Hsetex Hmail Hget Hdel Hget2 Ht.
  eexists _, _. rewrite send_otp_success by done.
  split; [reflexivity|].
  assert (truthy (Some (generated_otp send)) = true) as Hto
    by by apply bool_decide_eq_true.
  unfold post_verify_otp. change (str (Some email)) with email.
  rewrite isValidEmail_truthy, Hto, Hvalid, Hget, Hget2, Hdel by done.
  cbn [negb orb].
  unfold Redis.get, Redis.del. rewrite lookup_insert_eq.
  rewrite decide_True by lia. rewrite Hto. cbn [negb].
  change (str (Some (generated_otp send))) with (generated_otp send).
  rewrite decide_False by (intros H; by apply H).
  split; [reflexivity|]. rewrite lookup_delete_eq. done.
Qed.

Lemma otp_verifies_once_witness :
  ∃ db1 db2,
    post_send_otp (Some "alice@example.org")
      (mkOtpEnvironment "123456" true true true None false) 1000 ∅
    = (mkReply 200 (VObj [("message", VStr "OTP sent successfully")]), db1)
    ∧ post_verify_otp (Some "alice@example.org") (Some "123456")
        (mkOtpEnvironment "654321" true true true None false) 2000 db1
      = (mkReply 200 (VObj [("message", VStr "OTP verified successfully")]), db2)
    ∧ db2 !! "alice@example.org" = None
    ∧ post_verify_otp (Some "alice@example.org") (Some "123456")
        (mkOtpEnvironment "654321" true true true None false) 3000 db2
      = (mkReply 400 (error_body "OTP expired or invalid"), db2).
Proof.
  apply (otp_verifies_once "alice@example.org"
           (mkOtpEnvironment "123456" true true true None false)
           (mkOtpEnvironment "654321" true true true None false)
           (mkOtpEnvironment "654321" true true true None false)
           1000 2000 3000 ∅); try reflexivity; try discriminate.
  split; [intros H; discriminate H|reflexivity].
Defined.

(** What a successful verification tells about Redis. *)
Lemma verify_otp_cases
    (email otp : option string) (env : otp_environment) (now : Z)
    (db : gmap string (string * Z)) :
  status_code (fst (post_verify_otp email otp env now db)) = 200 →
  ∃ e code expires,
    email = Some e ∧ otp = Some code ∧ code ≠ ""
    ∧ isValidEmail e = true ∧ get_ok env = true
    ∧ db !! e = Some (code, expires) ∧ (now < expires)%Z.
Proof.
  unfold post_verify_otp.
  destruct (truthy email) eqn:Hemail; cbn [negb orb]; [|done].
  destruct (truthy otp) eqn:Hotp; cbn [negb]; [|done].
  apply truthy_Some in Hemail as (e & -> & He).
  apply truthy_Some in Hotp as (code & -> & Hcode).
  change (str (Some e)) with e. change (str (Some code)) with code.
  destruct (isValidEmail e) eqn:Hvalid; cbn [negb]; [|done].
  destruct (get_ok env) eqn:Hget; cbn [negb]; [|done].
  unfold Redis.get.
  destruct (db !! e) as [[stored expires]|] eqn:Hdb; [|done].
  destruct (decide (now < expires)%Z) as [Hlive|Hdead]; [|done].
  destruct (truthy (Some stored)) eqn:Hstored; cbn [negb]; [|done].
  change (str (Some stored)) with stored.
  destruct (decide (stored ≠ code)) as [Hne|Heq]; [done|].
  intros _. exists e, code, expires.
  destruct (decide (stored = code)) as [->|]; [done|by destruct Heq].
Qed.

(** X14: verify-otp answers 200 exactly when both fields are given,
    the address is well formed, Redis answers, and the code stored for
    the address has not expired and is the code given; any other answer
    leaves Redis as it is, so a wrong guess does not use up the code. *)
Theorem verify_otp_accepts_only_stored_code
    (email otp : option string) (env : otp_environment) (now : Z)
    (db : gmap string (string * Z)) :
  (status_code (fst (post_verify_otp email otp env now db)) = 200
   ↔ ∃ e code expires,
       email = Some e ∧ otp = Some code ∧ code ≠ ""
       ∧ isValidEmail e = true ∧ get_ok env = true
       ∧ db !! e = Some (code, expires) ∧ (now < expires)%Z)
  ∧ (status_code (fst (post_verify_otp email otp env now db)) ≠ 200 →
     snd (post_verify_otp email otp env now db) = db).
Proof.
  split; [split; [apply verify_otp_cases|]|].
  - intros (e & code & expires & -> & -> & Hcode & Hvalid & Hget & Hdb & Hlive).
    unfold post_verify_otp. change (str (Some e)) with e.
    assert (truthy (Some code) = true) as Htc by by apply bool_decide_eq_true.
    rewrite isValidEmail_truthy, Htc, Hvalid, Hget by done. cbn [negb orb].
    unfold Redis.get. rewrite Hdb, decide_True, Htc by done. cbn [negb].
    change (str (Some code)) with code.
    by rewrite decide_False by (intros H; by apply H).
  - unfold post_verify_otp.
    destruct (_ || _); [done|]. destruct (negb (isValidEmail _)); [done|].
    destruct (negb (get_ok env)); [done|].
    destruct (negb (truthy _)); [done|].
    by destruct (decide (_ ≠ _)).
Qed.

Lemma verify_otp_accepts_only_stored_code_witness :
  snd (post_verify_otp (Some "alice@example.org") (Some "000000")
         (mkOtpEnvironment "654321" true true true None false) 2000
         {[ "alice@example.org" := ("123456", 301000%Z) ]})
  = {[ "alice@example.org" := ("123456", 301000%Z) ]}.
Proof.
  apply (verify_otp_accepts_only_stored_code (Some "alice@example.org")
           (Some "000000")
           (mkOtpEnvironment "654321" true true true None false) 2000
           {[ "alice@example.org" := ("123456", 301000%Z) ]}).
  vm_compute. discriminate.
Defined.

(** X15: a code is good for five minutes only: from 300000 ms after a
    successful send on, verify-otp refuses every code for that address
    as "OTP expired or invalid". *)
Theorem otp_expires_after_five_minutes
    (email otp : string) (send verify : otp_environment) (t0 t1 : Z)
    (db : gmap string (string * Z)) :
  isValidEmail email = true → otp ≠ "" →
  setex_ok send = true → sendMail send = None → get_ok verify = true →
  (t0 + 300000 ≤ t1)%Z →
  post_verify_otp (Some email) (Some otp) verify t1
    (snd (post_send_otp (Some email) send t0 db))
  = (mkReply 400 (error_body "OTP expired or invalid"),
     snd (post_send_otp (Some email) send t0 db)).
Proof.
  intros Hvalid Hotp Hsetex Hmail Hget Ht.
  rewrite send_otp_success by done. cbn [snd].
  unfold post_verify_otp. change (str (Some email)) with email.
  rewrite isValidEmail_truthy, Hvalid, Hget by done.
  assert (truthy (Some otp) = true) as -> by by apply bool_decide_eq_true.
  cbn [negb orb]. unfold Redis.get. rewrite lookup_insert_eq.
  by rewrite decide_False by lia.
Qed.

Lemma otp_expires_after_five_minutes_witness :
  post_verify_otp (Some "alice@example.org") (Some "123456")
    (mkOtpEnvironment "654321" true true true None false) 301000
    (snd (post_send_otp (Some "alice@example.org")
            (mkOtpEnvironment "123456" true true true None false) 1000 ∅))
  = (mkReply 400 (error_body "OTP expired or invalid"),
     snd (post_send_otp (Some "alice@example.org")
            (mkOtpEnvironment "123456" true true true None false) 1000 ∅)).
Proof.
  apply (otp_expires_after_five_minutes "alice@example.org" "123456"
           (mkOtpEnvironment "123456" true true true None false)
           (mkOtpEnvironment "654321" true true true None false) 1000 301000 ∅);
    try reflexivity; try discriminate.
Defined.

(** X16: when the mail cannot be sent, send-otp answers 500 and leaves
    no code for the address: the new code is deleted, and with it any
    code the address still had from an earlier send, so every later
    verify-otp for the address is refused. *)
Theorem send_otp_mail_failure_leaves_no_code
    (email emailError : string) (env verify : otp_environment) (t0 t1 : Z)
    (otp : option string) (db : gmap string (string * Z)) :
  isValidEmail email = true →
  setex_ok env = true → sendMail env = Some emailError → del_ok env = true →
  status_code (fst (post_send_otp (Some email) env t0 db)) = 500
  ∧ snd (post_send_otp (Some email) env t0 db) = delete email db
  ∧ status_code
      (fst (post_verify_otp (Some email) otp verify t1
              (snd (post_send_otp (Some email) env t0 db))))
    ≠ 200.
Proof.
  intros Hvalid Hsetex Hmail Hdel.
  assert (post_send_otp (Some email) env t0 db
          = (mkReply 500
               (VObj
                  (("error",
                    VStr "Failed to send OTP email. Please check your email address or try again later.")
                   :: (if development env
                       then [("details", VStr emailError)] else []))),
             delete email db)) as ->.
  { unfold post_send_otp. change (str (Some email)) with email.
    rewrite isValidEmail_truthy, Hvalid, Hsetex, Hmail, Hdel by done.
    cbn [negb]. unfold Redis.del, Redis.setex. by rewrite delete_insert_eq. }
  split_and!; [done..|]. cbn [snd].
  intros Hok.
  apply verify_otp_cases in Hok
    as (e & code & expires & [= <-] & _ & _ & _ & _ & Hl & _).
  by rewrite lookup_delete_eq in Hl.
Qed.

Lemma send_otp_mail_failure_leaves_no_code_witness :
  status_code
    (fst (post_send_otp (Some "alice@example.org")
            (mkOtpEnvironment "222222" true true true (Some "550 rejected") false)
            2000 {[ "alice@example.org" := ("111111", 301000%Z) ]})) = 500
  ∧ snd (post_send_otp (Some "alice@example.org")
           (mkOtpEnvironment "222222" true true true (Some "550 rejected") false)
           2000 {[ "alice@example.org" := ("111111", 301000%Z) ]})
    = delete "alice@example.org"
        {[ "alice@example.org" := ("111111", 301000%Z) ]}
  ∧ status_code
      (fst (post_verify_otp (Some "alice@example.org") (Some "111111")
              (mkOtpEnvironment "654321" true true true None false) 3000
              (snd (post_send_otp (Some "alice@example.org")
                      (mkOtpEnvironment "222222" true true true
                         (Some "550 rejected") false)
                      2000 {[ "alice@example.org" := ("111111", 301000%Z) ]}))))
    ≠ 200.
Proof.
  apply (send_otp_mail_failure_leaves_no_code "alice@example.org"
           "550 rejected"
           (mkOtpEnvironment "222222" true true true (Some "550 rejected") false)
           (mkOtpEnvironment "654321" true true true None false) 2000 3000
           (Some "111111") {[ "alice@example.org" := ("111111", 301000%Z) ]});
    reflexivity.
Defined.

(** X17: a later successful send replaces an earlier one altogether:
    Redis ends as if the first send had not happened, and within the
    five minutes of the second send the first code, when it differs
    from the second, is refused as "Invalid OTP". *)
Theorem send_otp_supersedes_earlier_code
    (email : string) (first second verify : otp_environment) (t0 t1 t2 : Z)
    (db : gmap string (string * Z)) :
  isValidEmail email = true →
  setex_ok first = true → sendMail first = None →
  setex_ok second = true → sendMail second = None →
  generated_otp first ≠ "" → generated_otp second ≠ "" →
  generated_otp first ≠ generated_otp second →
  get_ok verify = true → (t1 ≤ t2 < t1 + 300000)%Z →
  snd (post_send_otp (Some email) second t1
         (snd (post_send_otp (Some email) first t0 db)))
  = snd (post_send_otp (Some email) second t1 db)
  ∧ fst (post_verify_otp (Some email) (Some (generated_otp first)) verify t2
           (snd (post_send_otp (Some email) second t1
                   (snd (post_send_otp (Some email) first t0 db)))))
    = mkReply 400 (error_body "Invalid OTP").
Proof.
  intros Hvalid Hs1 Hm1 Hs2 Hm2 Ho1 Ho2 Hne Hget Ht.
  rewrite !send_otp_success by done. cbn [snd].
  rewrite insert_insert_eq. split; [done|].
  unfold post_verify_otp. change (str (Some email)) with email.
  rewrite isValidEmail_truthy, Hvalid, Hget by done.
  assert (truthy (Some (generated_otp first)) = true) as ->
    by by apply bool_decide_eq_true.
  cbn [negb orb]. unfold Redis.get. rewrite lookup_insert_eq.
  rewrite decide_True by lia.
  assert (truthy (Some (generated_otp second)) = true) as ->
    by by apply bool_decide_eq_true.
  cbn [negb].
  change (str (Some (generated_otp second))) with (generated_otp second).
  change (str (Some (generated_otp first))) with (generated_otp first).
  by rewrite decide_True by congruence.
Qed.

Lemma send_otp_supersedes_earlier_code_witness :
  snd (post_send_otp (Some "alice@example.org")
         (mkOtpEnvironment "222222" true true true None false) 2000
         (snd (post_send_otp (Some "alice@example.org")
                 (mkOtpEnvironment "111111" true true true None false) 1000 ∅)))
  = snd (post_send_otp (Some "alice@example.org")
           (mkOtpEnvironment "222222" true true true None false) 2000 ∅)
  ∧ fst (post_verify_otp (Some "alice@example.org") (Some "111111")
           (mkOtpEnvironment "654321" true true true None false) 3000
           (snd (post_send_otp (Some "alice@example.org")
                   (mkOtpEnvironment "222222" true true true None false) 2000
                   (snd (post_send_otp (Some "alice@example.org")
                           (mkOtpEnvironment "111111" true true true None false)
                           1000 ∅)))))
    = mkReply 400 (error_body "Invalid OTP").
Proof.
  apply (send_otp_supersedes_earlier_code "alice@example.org"
           (mkOtpEnvironment "111111" true true true None false)
           (mkOtpEnvironment "222222" true true true None false)
           (mkOtpEnvironment "654321" true true true None false) 1000 2000 3000 ∅);
    try reflexivity; try discriminate.
  split; [intros H; discriminate H|reflexivity].
Defined.

(** * Accounts *)

Lemma findOne_email_None (email : string) (c : list User.t) :
  User_findOne_email email c = None → email ∉ User.email <$> c.
Proof.
  unfold User_findOne_email.
  destruct (list_find _ c) as [[i u]|] eqn:Hfind; [done|]. intros _.
  apply list_find_None in Hfind.
  intros (u & -> & Hu)%list_elem_of_fmap.
  by apply (proj1 (Forall_forall _ _) Hfind u).
Qed.

Lemma findOne_username_None (username : string) (c : list User.t) :
  User_findOne_username username c = None → username ∉ User.username <$> c.
Proof.
  unfold User_findOne_username.
  destruct (list_find _ c) as [[i u]|] eqn:Hfind; [done|]. intros _.
  apply list_find_None in Hfind.
  intros (u & -> & Hu)%list_elem_of_fmap.
  by apply (proj1 (Forall_forall _ _) Hfind u).
Qed.

(** X18: registration keeps addresses and user names unique: if no two
    users share an e-mail address or a user name before the request,
    none do after it.  It only ever appends one user, and an answer
    other than 201 leaves the server as it was. *)
Theorem register_keeps_accounts_unique
    (username email password : option string) (suffix : string) (s : Server) :
  NoDup (User.email <$> users s) →
  NoDup (User.username <$> users s) →
  NoDup (User.email
           <$> users (snd (post_register username email password suffix s)))
  ∧ NoDup (User.username
             <$> users (snd (post_register username email password suffix s)))
  ∧ users s `prefix_of`
      users (snd (post_register username email password suffix s))
  ∧ (status_code (fst (post_register username email password suffix s)) ≠ 201 →
     snd (post_register username email password suffix s) = s).
Proof.
  intros Hemails Hnames. unfold post_register.
  destruct (_ || _); [done|].
  destruct (negb _); [done|].
  destruct (User_findOne_email _ (users s)) eqn:He; [done|].
  destruct (User_findOne_username _ (users s)) eqn:Hu; [done|].
  cbn [fst snd status_code set_users users].
  rewrite !fmap_app. cbn [fmap list_fmap User.email User.username].
  split_and!; [| |by apply prefix_app_r|done].
  - apply NoDup_app. split_and!; [done| |apply NoDup_singleton].
    intros e Hin ->%list_elem_of_singleton.
    by apply findOne_email_None in He.
  - apply NoDup_app. split_and!; [done| |apply NoDup_singleton].
    intros e Hin ->%list_elem_of_singleton.
    by apply findOne_username_None in Hu.
Qed.

Lemma register_keeps_accounts_unique_witness :
  NoDup (User.email
           <$> users (snd (post_register (Some "dave") (Some "dave@example.org")
                             (Some "pw4") "k3x9" server0)))
  ∧ NoDup (User.username
             <$> users (snd (post_register (Some "dave")
                               (Some "dave@example.org") (Some "pw4") "k3x9"
                               server0)))
  ∧ users server0 `prefix_of`
      users (snd (post_register (Some "dave") (Some "dave@example.org")
                    (Some "pw4") "k3x9" server0))
  ∧ (status_code (fst (post_register (Some "dave") (Some "dave@example.org")
                         (Some "pw4") "k3x9" server0)) ≠ 201 →
     snd (post_register (Some "dave") (Some "dave@example.org") (Some "pw4")
            "k3x9" server0) = server0).
Proof.
  apply (register_keeps_accounts_unique (Some "dave") (Some "dave@example.org")
           (Some "pw4") "k3x9" server0);
    apply (bool_decide_unpack _); vm_compute; exact I.
Defined.

(** X19: a user who has just registered can log in: with a fresh
    address and user name, registration answers 201 with the peer id
    ["peer-" ++ suffix]; a login with the same address and password then
    answers 200 with that peer id and hands it to [markOnline]; with any
    other password it answers 400 and changes nothing. *)
Theorem register_then_login
    (markOnline : string → option string → option string → Z →
                  list OnlineUsers.t → list OnlineUsers.t)
    (username email password wrong suffix : string) (now : Z) (s : Server) :
  username ≠ "" → password ≠ "" → isValidEmail email = true →
  User_findOne_email email (users s) = None →
  User_findOne_username username (users s) = None →
  wrong ≠ password →
  ∃ s',
    post_register (Some username) (Some email) (Some password) suffix s
    = (mkReply 201
         (VObj [("success", VBool true);
                ("message", VStr "User registered successfully");
                ("username", VStr username); ("email", VStr email);
                ("peerId", VStr ("peer-" ++ suffix))]), s')
    ∧ post_login markOnline (Some email) (Some password) now s'
      = (mkReply 200
           (VObj [("success", VBool true); ("message", VStr "Login successful");
                  ("username", VStr username); ("email", VStr email);
                  ("peerId", VStr ("peer-" ++ suffix))]),
         set_onlineUsers
           (markOnline ("peer-" ++ suffix) (Some username) (Some email) now
              (onlineUsers s)) s')
    ∧ post_login markOnline (Some email) (Some wrong) now s'
      = (if bool_decide (wrong = "")
         then mkReply 400 (error_body "Email and password are required")
         else mkReply 400 (error_body "Invalid credentials no user found"),
         s').
Proof.
  intros Hu Hp Hvalid He Hn Hwrong.
  assert (truthy (Some username) = true) as Htu by by apply bool_decide_eq_true.
  assert (truthy (Some password) = true) as Htp by by apply bool_decide_eq_true.
  assert (truthy (Some email) = true) as Hte by by apply isValidEmail_truthy.
  eexists. split.
  { unfold post_register. rewrite Htu, Htp, Hte. cbn [negb orb].
    change (str (Some email)) with email.
    change (str (Some username)) with username.
    change (str (Some password)) with password.
    rewrite Hvalid, He, Hn. reflexivity. }
  assert (User_findOne_email email
            (users s ++ [User.mk username email password ("peer-" ++ suffix)])%list
          = Some (User.mk username email password ("peer-" ++ suffix))) as Hnew.
  { unfold User_findOne_email in *. rewrite list_find_snoc.
    destruct (list_find _ (users s)) as [[i u]|]; [done|].
    by rewrite decide_True. }
  unfold post_login. rewrite Hte, Htp.
  change (str (Some email)) with email.
  cbn [set_users users onlineUsers]. rewrite Hvalid, Hnew. cbn [negb orb].
  split.
  - change (str (Some password)) with password.
    by rewrite decide_False by (intros H; by apply H).
  - destruct (decide (wrong = "")) as [->|Hw].
    + done.
    + assert (truthy (Some wrong) = true) as -> by by apply bool_decide_eq_true.
      rewrite bool_decide_eq_false_2 by done. cbn [negb].
      change (str (Some wrong)) with wrong.
      by rewrite decide_True by (cbn; congruence).
Qed.

Lemma register_then_login_witness :
  ∃ s',
    post_register (Some "dave") (Some "dave@example.org") (Some "pw4") "k3x9"
      server0
    = (mkReply 201
         (VObj [("success", VBool true);
                ("message", VStr "User registered successfully");
                ("username", VStr "dave"); ("email", VStr "dave@example.org");
                ("peerId", VStr "peer-k3x9")]), s')
    ∧ post_login OnlineUsers.markOnline (Some "dave@example.org") (Some "pw4")
        9000 s'
      = (mkReply 200
           (VObj [("success", VBool true); ("message", VStr "Login successful");
                  ("username", VStr "dave"); ("email", VStr "dave@example.org");
                  ("peerId", VStr "peer-k3x9")]),
         set_onlineUsers
           (OnlineUsers.markOnline "peer-k3x9" (Some "dave")
              (Some "dave@example.org") 9000 (onlineUsers server0)) s')
    ∧ post_login OnlineUsers.markOnline (Some "dave@example.org") (Some "pw5")
        9000 s'
      = (mkReply 400 (error_body "Invalid credentials no user found"), s').
Proof.
  apply (register_then_login OnlineUsers.markOnline "dave" "dave@example.org"
           "pw4" "pw5" "k3x9" 9000 server0);
    try reflexivity; discriminate.
Defined.

(** X20: a login answers 200 exactly when both fields are given, the
    address is well formed and the first user with that address has that
    password; any other answer leaves the server untouched. *)
Theorem login_needs_matching_password
    (markOnline : string → option string → option string → Z →
                  list OnlineUsers.t → list OnlineUsers.t)
    (email password : option string) (now : Z) (s : Server) :
  (status_code (fst (post_login markOnline email password now s)) = 200
   ↔ ∃ e p user,
       email = Some e ∧ password = Some p ∧ p ≠ ""
       ∧ isValidEmail e = true
       ∧ User_findOne_email e (users s) = Some user
       ∧ User.password user = p)
  ∧ (status_code (fst (post_login markOnline email password now s)) ≠ 200 →
     snd (post_login markOnline email password now s) = s).
Proof.
  unfold post_login.
  destruct (truthy email) eqn:Hemail; cbn [negb orb];
    [|split; [split; [done|]|done]].
  2:{ intros (e & p & user & -> & _ & _ & Hv%isValidEmail_truthy & _).
      congruence. }
  destruct (truthy password) eqn:Hpw; cbn [negb];
    [|split; [split; [done|]|done]].
  2:{ intros (e & p & user & _ & -> & Hp & _).
      cbn in Hpw. by rewrite bool_decide_eq_true_2 in Hpw. }
  apply truthy_Some in Hemail as (e & -> & He).
  apply truthy_Some in Hpw as (p & -> & Hp).
  change (str (Some e)) with e. change (str (Some p)) with p.
  destruct (isValidEmail e) eqn:Hvalid; cbn [negb];
    [|split; [split; [done|]|done]].
  2:{ intros (? & ? & ? & [= <-] & _ & _ & ? & _). congruence. }
  destruct (User_findOne_email e (users s)) as [user|] eqn:Huser;
    [|split; [split; [done|]|done]].
  2:{ intros (? & ? & ? & [= <-] & _ & _ & _ & ? & _). congruence. }
  destruct (decide (User.password user ≠ p)) as [Hne|Heq];
    [split; [split; [done|]|done]|].
  { intros (? & ? & u & [= <-] & [= <-] & _ & _ & Hu & Hpass). congruence. }
  assert (User.password user = p) as Hpass
    by (destruct (decide (User.password user = p)); [done|by destruct Heq]).
  cbn [fst snd status_code].
  split; [|done]. split; [|done]. intros _. exists e, p, user. done.
Qed.

Lemma login_needs_matching_password_witness :
  snd (post_login OnlineUsers.markOnline (Some "alice@example.org")
         (Some "guess") 9000 server0) = server0.
Proof.
  apply (login_needs_matching_password OnlineUsers.markOnline
           (Some "alice@example.org") (Some "guess") 9000 server0).
  vm_compute. discriminate.
Defined.

(** X21: verify-user and verify-peer-id agree: they answer 404 for the
    same addresses, and the peer id that verify-user returns for an
    address is the one, and the only one, that verify-peer-id reports as
    a match for it. *)
Theorem verify_user_then_verify_peer_id (email peerId : string) (s : Server) :
  (status_code (post_verify_user email s) = 404
   ↔ status_code (post_verify_peer_id email peerId s) = 404)
  ∧ (∀ stored,
       field "peerId" (payload (post_verify_user email s)) = Some (VStr stored) →
       post_verify_peer_id email peerId s
       = mkReply 200
           (VObj [("match", VBool (bool_decide (stored = peerId)));
                  ("storedPeerId", VStr stored);
                  ("providedPeerId", VStr peerId)])).
Proof.
  unfold post_verify_user, post_verify_peer_id.
  destruct (User_findOne_email email (users s)) as [user|]; cbn.
  - split; [done|]. by intros stored [= <-].
  - split; [done|]. intros stored. rewrite decide_False by done. done.
Qed.

Lemma verify_user_then_verify_peer_id_witness :
  post_verify_peer_id "bob@example.org" "p2" server0
  = mkReply 200
      (VObj [("match", VBool true); ("storedPeerId", VStr "p2");
             ("providedPeerId", VStr "p2")]).
Proof.
  apply (proj2 (verify_user_then_verify_peer_id "bob@example.org" "p2" server0)
           "p2").
  reflexivity.
Defined.

(** * The front end *)

(** X22: the reducer's session flag follows the last session action:
    after any actions from the initial state the session is started
    exactly when a start has come with no stop after it, and a session
    that is not started has no peer id. *)
Theorem PeerReducer_started (actions : list Peer.action) :
  (Peer.started (foldl Peer.PeerReducer Peer.initialState actions) = true
   ↔ ∃ before id after,
       actions = (before ++ Peer.PEER_SESSION_START id :: after)%list
       ∧ Peer.PEER_SESSION_STOP ∉ after)
  ∧ (Peer.started (foldl Peer.PeerReducer Peer.initialState actions) = false →
     Peer.id (foldl Peer.PeerReducer Peer.initialState actions) = None).
Proof.
  induction actions as [|a actions [IHs IHid]] using rev_ind.
  - split; [|done]. split; [done|].
    intros (before & id & after & Heq & _). by destruct before.
  - rewrite foldl_app. cbn [foldl]. destruct a as [id| |l|]; cbn.
    + split; [|done]. split; [|done]. intros _.
      exists actions, id, []. split; [done|]. apply not_elem_of_nil.
    + split; [|done]. split; [done|].
      intros (before & id & after & Heq & Hstop).
      destruct after as [|x after _] using rev_ind.
      * apply app_inj_tail in Heq as [_ Heq]. done.
      * rewrite app_comm_cons, app_assoc in Heq.
        apply app_inj_tail in Heq as [_ <-].
        exfalso. apply Hstop, elem_of_app. right. apply list_elem_of_here.
    + split; [|exact IHid]. rewrite IHs. split.
      * intros (before & id & after & -> & Hstop).
        exists before, id, (after ++ [Peer.PEER_LOADING l])%list.
        split; [by rewrite <- app_assoc|].
        rewrite elem_of_app, list_elem_of_singleton. by intros [?|?].
      * intros (before & id & after & Heq & Hstop).
        destruct after as [|x after _] using rev_ind.
        -- apply app_inj_tail in Heq as [_ Heq]. done.
        -- rewrite app_comm_cons, app_assoc in Heq.
           apply app_inj_tail in Heq as [-> <-].
           exists before, id, after. split; [done|].
           intros Hin. apply Hstop, elem_of_app. by left.
    + split; [|exact IHid]. rewrite IHs. split.
      * intros (before & id & after & -> & Hstop).
        exists before, id, (after ++ [Peer.OTHER])%list.
        split; [by rewrite <- app_assoc|].
        rewrite elem_of_app, list_elem_of_singleton. by intros [?|?].
      * intros (before & id & after & Heq & Hstop).
        destruct after as [|x after _] using rev_ind.
        -- apply app_inj_tail in Heq as [_ Heq]. done.
        -- rewrite app_comm_cons, app_assoc in Heq.
           apply app_inj_tail in Heq as [-> <-].
           exists before, id, after. split; [done|].
           intros Hin. apply Hstop, elem_of_app. by left.
Qed.

Lemma PeerReducer_started_witness :
  Peer.id
    (foldl Peer.PeerReducer Peer.initialState
       [Peer.PEER_LOADING true; Peer.PEER_SESSION_START (Some "p1");
        Peer.PEER_SESSION_STOP; Peer.PEER_LOADING false])
  = None.
Proof.
  apply (PeerReducer_started
           [Peer.PEER_LOADING true; Peer.PEER_SESSION_START (Some "p1");
            Peer.PEER_SESSION_STOP; Peer.PEER_LOADING false]).
  reflexivity.
Defined.

(** ** File types *)

Lemma get_Own (key v : string) :
  DataSharingChecked.get key = DataSharingChecked.Own v
  ↔ (key, v) ∈ DataSharingChecked.ALLOWED_FILE_TYPES.
Proof.
  unfold DataSharingChecked.get. split.
  - destruct (list_find _ _) as [[i [k x]]|] eqn:Hfind.
    + intros [= ->].
      apply list_find_Some in Hfind as (Hi & Hk & _). cbn in Hk. subst k.
      by eapply list_elem_of_lookup_2.
    + by destruct (bool_decide _).
  - intros Hin. unfold DataSharingChecked.ALLOWED_FILE_TYPES in Hin.
    repeat (apply elem_of_cons in Hin as [[= -> ->]|Hin]; [reflexivity|]).
    by apply elem_of_nil in Hin.
Qed.

(** Every type in the front end's table is in the server's list. *)
Lemma table_type_allowed (extension type : string) :
  (extension, type) ∈ DataSharingChecked.ALLOWED_FILE_TYPES →
  type ∈ allowedTypes.
Proof.
  unfold DataSharingChecked.ALLOWED_FILE_TYPES. intros Hin.
  repeat (apply elem_of_cons in Hin as [[= _ ->]|Hin];
          [apply (bool_decide_unpack _); vm_compute; exact I|]).
  by apply elem_of_nil in Hin.
Qed.

(** X23: the two lists of file types agree: the server's [fileFilter]
    accepts a MIME type exactly when the front end's table has an
    extension for it. *)
Theorem fileFilter_agrees_with_front_end (f : file) :
  fileFilter f = true
  ↔ ∃ extension,
      DataSharingChecked.get extension = DataSharingChecked.Own (mimetype f).
Proof.
  unfold fileFilter. rewrite bool_decide_eq_true. split.
  - unfold allowedTypes. intros Hin.
    repeat (apply elem_of_cons in Hin as [->|Hin];
            [first [by exists "pdf" | by exists "doc" | by exists "docx"
                   | by exists "txt" | by exists "jpg" | by exists "png"
                   | by exists "gif" | by exists "mp3" | by exists "wav"
                   | by exists "mp4" | by exists "mkv" | by exists "zip"
                   | by exists "rar" | by exists "7z"]|]).
    by apply elem_of_nil in Hin.
  - intros [extension Hin%get_Own]. by eapply table_type_allowed.
Qed.

(** X24: what the upload control lets through, the server accepts: the
    control replaces the selection by the new file exactly when the file
    is no larger than the server's upload limit of 100 MB and its type
    is allowed (otherwise the selection stays), and a file whose type
    the front end allows passes the server's [fileFilter]. *)
Theorem beforeUpload_lets_through_what_server_accepts
    (f : DataSharingChecked.File) (fileList : list DataSharingChecked.File)
    (path : string) :
  (DataSharingChecked.beforeUpload f fileList
   = if bool_decide (DataSharingChecked.size f ≤ limits_fileSize)%Z
        && DataSharingChecked.isFileTypeAllowed f
     then [f] else fileList)
  ∧ (DataSharingChecked.isFileTypeAllowed f = true →
     fileFilter (mkFile (DataSharingChecked.name f) (DataSharingChecked.type f)
                   (DataSharingChecked.size f) path) = true).
Proof.
  split.
  - unfold DataSharingChecked.beforeUpload, limits_fileSize.
    destruct (decide (100 * 1024 * 1024 < DataSharingChecked.size f)%Z).
    + by rewrite bool_decide_eq_false_2 by lia.
    + rewrite bool_decide_eq_true_2 by lia.
      by destruct (DataSharingChecked.isFileTypeAllowed f).
  - unfold DataSharingChecked.isFileTypeAllowed.
    destruct (DataSharingChecked.get _) as [expected| |] eqn:Hget; [|done..].
    intros <-%bool_decide_eq_true. apply get_Own in Hget.
    unfold fileFilter. cbn [mimetype]. apply bool_decide_eq_true.
    by eapply table_type_allowed.
Qed.

Lemma beforeUpload_lets_through_what_server_accepts_witness :
  fileFilter (mkFile "Report.PDF" "application/pdf" 2048 "uploads/file-2.pdf")
  = true.
Proof.
  apply (proj2 (beforeUpload_lets_through_what_server_accepts
                  (DataSharingChecked.mkFile "Report.PDF" "application/pdf" 2048)
                  [] "uploads/file-2.pdf")).
  reflexivity.
Defined.

Lemma split_String (sep c : Ascii.ascii) (s : string) :
  DataSharingChecked.split sep (String c s)
  = if decide (c = sep) then EmptyString :: DataSharingChecked.split sep s
    else match DataSharingChecked.split sep s with
         | first :: others => String c first :: others
         | [] => [String c EmptyString]
         end.
Proof. reflexivity. Qed.

Lemma split_nonempty (sep : Ascii.ascii) (s : string) :
  DataSharingChecked.split sep s ≠ [].
Proof.
  destruct s as [|c s]; [done|]. rewrite split_String.
  destruct (decide (c = sep)); [done|].
  by destruct (DataSharingChecked.split sep s).
Qed.

Lemma split_append (sep : Ascii.ascii) (a b : string) :
  DataSharingChecked.split sep (a ++ String sep b)
  = (DataSharingChecked.split sep a ++ DataSharingChecked.split sep b)%list.
Proof.
  induction a as [|c a IH].
  - change (EmptyString ++ String sep b) with (String sep b).
    rewrite split_String. by rewrite decide_True.
  - change (String c a ++ String sep b) with (String c (a ++ String sep b)).
    rewrite !split_String, IH.
    destruct (decide (c = sep)); [done|].
    pose proof (split_nonempty sep a) as Hne.
    by destruct (DataSharingChecked.split sep a).
Qed.

Lemma split_without_separator (sep : Ascii.ascii) (s : string) :
  Forall (λ c, c ≠ sep) (String.list_ascii_of_string s) →
  DataSharingChecked.split sep s = [s].
Proof.
  induction s as [|c s IH]; [done|].
  cbn [String.list_ascii_of_string]. intros [Hc Hs]%Forall_cons.
  rewrite split_String, decide_False by done. by rewrite IH.
Qed.

Lemma last_append_nonempty {A} (l1 l2 : list A) (d : A) :
  l2 ≠ [] → List.last (l1 ++ l2) d = List.last l2 d.
Proof.
  intros Hne. induction l1 as [|x l1 IH]; [done|].
  cbn. rewrite IH. destruct (l1 ++ l2)%list eqn:Heq; [|done].
  apply app_eq_nil in Heq as [_ ->]. done.
Qed.

(** X25: only what follows the last dot of the file name counts, in
    any letter case: a name [base.ext] is judged like the bare name
    [ext], and either is allowed exactly when the table maps the
    lower-cased [ext] to the file's type.  So a file named just [pdf],
    with no dot at all, is taken for a PDF. *)
Theorem isFileTypeAllowed_reads_last_extension
    (base ext type : string) (size : Z) :
  Forall (λ c, c ≠ DataSharingChecked.dot) (String.list_ascii_of_string ext) →
  DataSharingChecked.isFileTypeAllowed
    (DataSharingChecked.mkFile (base ++ "." ++ ext) type size)
  = DataSharingChecked.isFileTypeAllowed
      (DataSharingChecked.mkFile ext type size)
  ∧ (DataSharingChecked.isFileTypeAllowed
       (DataSharingChecked.mkFile ext type size) = true
     ↔ (DataSharingChecked.toLowerCase ext, type)
       ∈ DataSharingChecked.ALLOWED_FILE_TYPES).
Proof.
  intros Hext. unfold DataSharingChecked.isFileTypeAllowed.
  cbn [DataSharingChecked.name DataSharingChecked.type].
  change (base ++ "." ++ ext) with (base ++ String DataSharingChecked.dot ext).
  rewrite split_append, (split_without_separator _ ext) by done.
  unfold DataSharingChecked.pop.
  rewrite last_append_nonempty by done. cbn [List.last].
  split; [done|]. rewrite <- get_Own.
  destruct (DataSharingChecked.get _) as [expected| |]; [|done..].
  rewrite bool_decide_eq_true. split; congruence.
Qed.

Lemma isFileTypeAllowed_reads_last_extension_witness :
  DataSharingChecked.isFileTypeAllowed
    (DataSharingChecked.mkFile ("archive.tar" ++ "." ++ "ZIP") "application/zip" 10)
  = DataSharingChecked.isFileTypeAllowed
      (DataSharingChecked.mkFile "ZIP" "application/zip" 10)
  ∧ (DataSharingChecked.isFileTypeAllowed
       (DataSharingChecked.mkFile "ZIP" "application/zip" 10) = true
     ↔ (DataSharingChecked.toLowerCase "ZIP", "application/zip")
       ∈ DataSharingChecked.ALLOWED_FILE_TYPES).
Proof.
  apply (isFileTypeAllowed_reads_last_extension "archive.tar" "ZIP"
           "application/zip" 10).
  repeat constructor; discriminate.
Defined.

(** ** Connecting to a peer *)

(** X26: the component of [components/DataSharing.jsx] asks the server
    whether the peer is registered, never whether it is online: after
    dispatching the connection it offers offline sharing, under the
    registered user name, for every registered peer id whatever the
    presence collection holds, and shows "User not found" for an
    unregistered one. *)
Theorem connect_offers_offline_sharing_if_registered
    (id message : string) (s : Server) (presence : list OnlineUsers.t) :
  id ≠ "" →
  DataSharing.handleConnectOtherPeer (Some id)
    (axios_of message (post_check_user_status id s))
  = match User.findOne id (users s) with
    | Some user =>
      [DataSharing.ConnectPeer id;
       DataSharing.OfferOfflineSharing id (Some (VStr (User.username user)))]
    | None =>
      [DataSharing.ConnectPeer id; DataSharing.MessageError "User not found"]
    end
  ∧ DataSharing.handleConnectOtherPeer (Some id)
      (axios_of message (post_check_user_status id (set_onlineUsers presence s)))
    = DataSharing.handleConnectOtherPeer (Some id)
        (axios_of message (post_check_user_status id s)).
Proof.
  intros Hid. split; [|done].
  unfold DataSharing.handleConnectOtherPeer, post_check_user_status.
  assert (truthy (Some id) = true) as -> by by apply bool_decide_eq_true.
  cbn [negb]. change (str (Some id)) with id.
  by destruct (User.findOne id (users s)).
Qed.

Lemma connect_offers_offline_sharing_if_registered_witness :
  DataSharing.handleConnectOtherPeer (Some "p1")
    (axios_of "Request failed with status code 404"
       (post_check_user_status "p1" server0))
  = [DataSharing.ConnectPeer "p1";
     DataSharing.OfferOfflineSharing "p1" (Some (VStr "alice"))]
  ∧ DataSharing.handleConnectOtherPeer (Some "p1")
      (axios_of "Request failed with status code 404"
         (post_check_user_status "p1" (set_onlineUsers [] server0)))
    = DataSharing.handleConnectOtherPeer (Some "p1")
        (axios_of "Request failed with status code 404"
           (post_check_user_status "p1" server0)).
Proof.
  apply (connect_offers_offline_sharing_if_registered "p1"
           "Request failed with status code 404" server0 []).
  discriminate.
Defined.

(** X27: the component with file type checks goes to the offline
    sharing page exactly when an id was entered, no connection to it is
    open and the connection attempt fails with the message
    "OFFLINE_PEER"; no other failure of the attempt leads there.  The
    page is then opened for that id under the user name the status
    endpoint returns, which is the registered name, or under "Unknown
    User" when the id is not registered: an unregistered id is sent to
    offline sharing too. *)
Theorem connect_redirects_on_offline_peer_only
    (connection_id : option string) (isPeerConnected : bool)
    (connectPeer : option string) (status : DataSharingChecked.axios_outcome)
    (message : string) (now : Z) (s : Server) :
  ((∃ to id username,
      DataSharingChecked.Navigate to id username
      ∈ DataSharingChecked.handleConnectOtherPeer connection_id isPeerConnected
          connectPeer status)
   ↔ truthy connection_id = true ∧ isPeerConnected = false
     ∧ connectPeer = Some "OFFLINE_PEER")
  ∧ (truthy connection_id = true →
     DataSharingChecked.handleConnectOtherPeer connection_id false
       (Some "OFFLINE_PEER")
       (axios_of message
          (status_reply (get_user_status (str connection_id) now s)))
     = [DataSharingChecked.ConnectPeer (str connection_id);
        DataSharingChecked.MessageWarning "Peer is currently offline";
        DataSharingChecked.MessageInfo "Redirecting to offline sharing...";
        DataSharingChecked.Navigate "/offline-sharing" (str connection_id)
          (Some (VStr match User.findOne (str connection_id) (users s) with
                      | Some user => User.username user
                      | None => "Unknown User"
                      end))]).
Proof.
  split.
  - unfold DataSharingChecked.handleConnectOtherPeer.
    destruct (truthy connection_id); cbn [negb].
    2:{ split; [|by intros [? _]].
        intros (to & id & u & Hin). apply list_elem_of_singleton in Hin. done. }
    destruct isPeerConnected.
    { split; [|by intros (_ & ? & _)].
      intros (to & id & u & Hin). apply list_elem_of_singleton in Hin. done. }
    destruct connectPeer as [msg|].
    2:{ split; [|by intros (_ & _ & ?)].
        intros (to & id & u & Hin).
        repeat (apply elem_of_cons in Hin as [Hin|Hin]; [done|]).
        by apply elem_of_nil in Hin. }
    destruct (decide (msg = "OFFLINE_PEER")) as [->|Hmsg].
    + split; [done|]. intros _. eexists _, _, _.
      do 3 apply list_elem_of_further. apply list_elem_of_here.
    + split; [|by intros (_ & _ & [= ?])].
      intros (to & id & u & Hin).
      repeat (apply elem_of_cons in Hin as [Hin|Hin]; [done|]).
      by apply elem_of_nil in Hin.
  - intros Hid. unfold DataSharingChecked.handleConnectOtherPeer.
    rewrite Hid. cbn [negb]. rewrite decide_True by done.
    unfold get_user_status.
    by destruct (User.findOne (str connection_id) (users s)).
Qed.

Lemma connect_redirects_on_offline_peer_only_witness :
  DataSharingChecked.handleConnectOtherPeer (Some "p9") false
    (Some "OFFLINE_PEER")
    (axios_of "Request failed with status code 404"
       (status_reply (get_user_status "p9" 5000 server0)))
  = [DataSharingChecked.ConnectPeer "p9";
     DataSharingChecked.MessageWarning "Peer is currently offline";
     DataSharingChecked.MessageInfo "Redirecting to offline sharing...";
     DataSharingChecked.Navigate "/offline-sharing" "p9"
       (Some (VStr "Unknown User"))].
Proof.
  apply (proj2 (connect_redirects_on_offline_peer_only (Some "p9") false None
                  (DataSharingChecked.Rejects "" None)
                  "Request failed with status code 404" 5000 server0)).
  reflexivity.
Defined.

(** * Configuration *)

(** X28: the reconnection delay of the Redis client grows by 100 ms
    per attempt, not exponentially, up to attempt 30 and is 3000 ms from
    then on; it never decreases and never exceeds 3000 ms. *)
Theorem retryStrategy_linear_then_capped (times : Z) :
  (times ≤ 30 → retryStrategy times = times * 100)%Z
  ∧ (30 ≤ times → retryStrategy times = 3000)%Z
  ∧ (retryStrategy times ≤ retryStrategy (times + 1) ≤ 3000)%Z.
Proof. unfold retryStrategy. lia. Qed.

Lemma retryStrategy_linear_then_capped_witness :
  retryStrategy 7 = 700%Z ∧ retryStrategy 45 = 3000%Z.
Proof.
  split.
  - apply (retryStrategy_linear_then_capped 7). lia.
  - apply (retryStrategy_linear_then_capped 45). lia.
Defined.
